(** * gemini-openai-proxy: the request/response translation of [src/index.ts]

    The relay exposes two routes.  [GET /v1/models] forwards to the provider's
    model list and rewrites every returned name; [POST /v1/chat/completions]
    builds a [generateContent] request from the (untyped) JSON body, calls the
    provider, and reshapes the answer into an OpenAI style completion object.

    The embedding follows the TypeScript text function by function:
    - request bodies and provider answers are untyped JavaScript values
      ([data: any], [candidate: any], [part: any]), so property reads, method
      calls on the wrong kind of value and [Buffer.from] can throw;
    - [async] functions are computations over the list of HTTP calls issued so
      far and the lines written to [console.error];
    - the clock, the random source, the API key and the provider are the
      environment of a run. *)

From Stdlib Require Import List String Ascii ZArith NArith Bool Lia.
From Stdlib.Strings Require Import Byte.
Import ListNotations.
Local Open Scope string_scope.
#[local] Set Warnings "-register-all".

(** ** Exceptions and results *)

Inductive exn : Type :=
| TypeError                      (* raised by the runtime *)
| Error (message : string)       (* [new Error(message)] *)
| AxiosError.                    (* rejected [axios] promise *)

Inductive result (A : Type) : Type :=
| Ok (a : A)
| Throw (e : exn).
Arguments Ok {A} a.
Arguments Throw {A} e.

Definition result_bind {A B} (r : result A) (k : A -> result B) : result B :=
  match r with
  | Ok a => k a
  | Throw e => Throw e
  end.

Notation "'let?' x ':=' r 'in' k" := (result_bind r (fun x => k))
  (at level 10, x name, r at level 100, k at level 200).

(** ** JavaScript values

    What [JSON.parse] can produce, plus [undefined] for a missing property.
    Strings are kept in their UTF-8 encoding.  [VNum n] is a number whose
    value is the integer [n]; fractional numbers are outside the model.  An
    object is the list of its own properties, each key occurring once. *)

Inductive value : Type :=
| VUndefined
| VNull
| VBool (b : bool)
| VNum (n : Z)
| VStr (s : string)
| VArr (items : list value)
| VObj (fields : list (string * value)).

(** ToBoolean. *)
Definition truthy (v : value) : bool :=
  match v with
  | VUndefined | VNull => false
  | VBool b => b
  | VNum n => negb (n =? 0)%Z
  | VStr s => negb (s =? "")
  | VArr _ | VObj _ => true
  end.

(** [a || b]. *)
Definition or_else (a b : value) : value :=
  if truthy a then a else b.

Fixpoint lookup (k : string) (fields : list (string * value)) : option value :=
  match fields with
  | [] => None
  | (k', v) :: rest => if k' =? k then Some v else lookup k rest
  end.

(** [v.k] for the property names this program reads (none of them is a
    built-in property of strings, numbers, booleans or arrays). *)
Definition property (v : value) (k : string) : result value :=
  match v with
  | VUndefined | VNull => Throw TypeError
  | VObj fields =>
      Ok (match lookup k fields with Some x => x | None => VUndefined end)
  | VBool _ | VNum _ | VStr _ | VArr _ => Ok VUndefined
  end.

(** The receiver of [.map(...)]: only arrays have the method. *)
Definition as_array (v : value) : result (list value) :=
  match v with
  | VArr items => Ok items
  | _ => Throw TypeError
  end.

(** [Array.prototype.map] with a callback [(element, index) => ...] that may
    throw; elements are visited from left to right. *)
Fixpoint Array_map_from {B} (i : nat) (f : value -> nat -> result B)
    (items : list value) : result (list B) :=
  match items with
  | [] => Ok []
  | x :: rest =>
      let? y := f x i in
      let? ys := Array_map_from (S i) f rest in
      Ok (y :: ys)
  end.

Definition Array_map {B} (f : value -> nat -> result B) (items : list value)
  : result (list B) :=
  Array_map_from 0 f items.

(** [String.prototype.replace(pattern, replacement)] with a string pattern and
    a replacement free of [$] patterns: the first occurrence is replaced. *)
Fixpoint string_drop (n : nat) (s : string) : string :=
  match n, s with
  | S n', String _ s' => string_drop n' s'
  | _, _ => s
  end.

Fixpoint String_replace (pattern replacement s : string) : string :=
  if prefix pattern s
  then replacement ++ string_drop (length pattern) s
  else match s with
       | EmptyString => EmptyString
       | String c s' => String c (String_replace pattern replacement s')
       end.

(** Does [pattern] occur somewhere in [s]? *)
Fixpoint occurs (pattern s : string) : bool :=
  prefix pattern s ||
  match s with
  | EmptyString => false
  | String _ s' => occurs pattern s'
  end.

(** ** The parts of the Node.js runtime that are not fixed here

    [Buffer_from_arrayLike] is [Buffer.from] on a plain object or on an array
    with an element that is not a safe integer (coercions that depend on the
    Node version); [ToString] is the string conversion of a value that is
    neither [undefined], [null] nor a string; [String_toLowerCase] is the
    Unicode lower-casing. *)

Class Runtime : Type := {
  Buffer_from_arrayLike : value -> result (list byte);
  ToString : value -> result string;
  String_toLowerCase : string -> string
}.

(** A runtime to evaluate examples with: ASCII lower-casing, no coercions. *)
Definition ascii_lower (c : ascii) : ascii :=
  let n := nat_of_ascii c in
  if ((65 <=? n) && (n <=? 90))%nat then ascii_of_nat (n + 32) else c.

Fixpoint string_map (f : ascii -> ascii) (s : string) : string :=
  match s with
  | EmptyString => EmptyString
  | String c s' => String (f c) (string_map f s')
  end.

Definition plain_runtime : Runtime := {|
  Buffer_from_arrayLike := fun _ => Throw TypeError;
  ToString := fun _ => Throw TypeError;
  String_toLowerCase := string_map ascii_lower
|}.

(** ** Base64, as [buf.toString("base64")] produces it (RFC 4648, padded) *)

Definition base64_alphabet : string :=
  "ABCDEFGHIJKLMNOPQRSTUVWXYZabcdefghijklmnopqrstuvwxyz0123456789+/".

Definition sextet (n : N) : ascii :=
  match String.get (N.to_nat n) base64_alphabet with
  | Some c => c
  | None => "="%char
  end.

Fixpoint base64 (bytes : list byte) : string :=
  match bytes with
  | [] => ""
  | [a] =>
      let x := Byte.to_N a in
      String (sextet (N.shiftr x 2))
        (String (sextet (N.shiftl (N.land x 3) 4)) "==")
  | [a; b] =>
      let x := Byte.to_N a in
      let y := Byte.to_N b in
      String (sextet (N.shiftr x 2))
        (String (sextet (N.lor (N.shiftl (N.land x 3) 4) (N.shiftr y 4)))
           (String (sextet (N.shiftl (N.land y 15) 2)) "="))
  | a :: b :: c :: rest =>
      let x := Byte.to_N a in
      let y := Byte.to_N b in
      let z := Byte.to_N c in
      String (sextet (N.shiftr x 2))
        (String (sextet (N.lor (N.shiftl (N.land x 3) 4) (N.shiftr y 4)))
           (String (sextet (N.lor (N.shiftl (N.land y 15) 2) (N.shiftr z 6)))
              (String (sextet (N.land z 63)) (base64 rest))))
  end.


(** The inverse reading, to check that [base64] loses nothing. *)
Fixpoint index_of (c : ascii) (s : string) : option N :=
  match s with
  | EmptyString => None
  | String d s' =>
      if (c =? d)%char then Some 0%N else option_map N.succ (index_of c s')
  end.

Definition sextet_value (c : ascii) : option N :=
  index_of c base64_alphabet.

Definition byte_of_N (n : N) : byte :=
  match Byte.of_N n with
  | Some b => b
  | None => x00
  end.

Definition first_byte (p q : N) : byte :=
  byte_of_N (N.lor (N.shiftl p 2) (N.shiftr q 4)).

Definition second_byte (q r : N) : byte :=
  byte_of_N (N.lor (N.shiftl (N.land q 15) 4) (N.shiftr r 2)).

Definition third_byte (r t : N) : byte :=
  byte_of_N (N.lor (N.shiftl (N.land r 3) 6) t).

Definition is_pad (c : ascii) : bool := (c =? "=")%char.

Fixpoint base64_decode (s : string) : option (list byte) :=
  match s with
  | EmptyString => Some []
  | String a (String b (String c (String d rest))) =>
      match sextet_value a, sextet_value b with
      | Some p, Some q =>
          if is_pad c
          then
            if is_pad d && (rest =? "")
            then Some [first_byte p q]
            else None
          else
            match sextet_value c with
            | Some r =>
                if is_pad d
                then
                  if rest =? ""
                  then Some [first_byte p q; second_byte q r]
                  else None
                else
                  match sextet_value d with
                  | Some t =>
                      option_map
                        (fun tail =>
                           first_byte p q :: second_byte q r
                           :: third_byte r t :: tail)
                        (base64_decode rest)
                  | None => None
                  end
            | None => None
            end
      | _, _ => None
      end
  | _ => None
  end.

(** The bit arithmetic of one group, checked on every pair of bytes. *)
Definition group_check (x y : N) : bool :=
  let s1 := N.shiftr x 2 in
  let s2 := N.lor (N.shiftl (N.land x 3) 4) (N.shiftr y 4) in
  let s2' := N.shiftl (N.land x 3) 4 in
  let s3 := N.lor (N.shiftl (N.land x 15) 2) (N.shiftr y 6) in
  let s3' := N.shiftl (N.land y 15) 2 in
  let s4 := N.land y 63 in
  ((s1 <? 64) && (s2 <? 64) && (s2' <? 64) && (s3 <? 64) && (s3' <? 64)
   && (s4 <? 64)
   && (N.lor (N.shiftl s1 2) (N.shiftr s2 4) =? x)
   && (N.lor (N.shiftl s1 2) (N.shiftr s2' 4) =? x)
   && (N.lor (N.shiftl (N.land s2 15) 4) (N.shiftr s3' 2) =? y)
   && (N.lor (N.shiftl (N.land s2 15) 4) (N.land y 15) =? y)
   && (N.shiftr s3 2 =? N.land x 15)
   && (N.lor (N.shiftl (N.land s3 3) 6) s4 =? y))%N.

(** ** [Buffer.from] and [Array.prototype.join] *)

Definition safe_integer (n : Z) : bool :=
  (Z.abs n <=? 9007199254740991)%Z.

(** The elements of an array when each is a safe integer. *)
Fixpoint integer_items (items : list value) : option (list Z) :=
  match items with
  | [] => Some []
  | VNum n :: rest =>
      if safe_integer n
      then option_map (cons n) (integer_items rest)
      else None
  | _ :: _ => None
  end.

(** An integer stored into a [Uint8Array] slot: reduced modulo 256. *)
Definition ToUint8 (n : Z) : byte :=
  match Byte.of_N (Z.to_N (n mod 256)) with
  | Some b => b
  | None => x00
  end.

Section WithRuntime.
Context {runtime : Runtime}.

(** [Buffer.from(v)]: a string gives its UTF-8 bytes, an array of integers
    gives one byte per element, and a number or a boolean is rejected. *)
Definition Buffer_from (v : value) : result (list byte) :=
  match v with
  | VStr s => Ok (list_byte_of_string s)
  | VArr items =>
      match integer_items items with
      | Some ns => Ok (map ToUint8 ns)
      | None => Buffer_from_arrayLike v
      end
  | VObj _ => Buffer_from_arrayLike v
  | VUndefined | VNull | VBool _ | VNum _ => Throw TypeError
  end.

(** One element of [join]: [undefined] and [null] give the empty string. *)
Definition join_element (v : value) : result string :=
  match v with
  | VUndefined | VNull => Ok ""
  | VStr s => Ok s
  | VBool _ | VNum _ | VArr _ | VObj _ => ToString v
  end.

Fixpoint join_rest (separator : string) (items : list value) : result string :=
  match items with
  | [] => Ok ""
  | x :: rest =>
      let? s := join_element x in
      let? r := join_rest separator rest in
      Ok (separator ++ s ++ r)
  end.

Definition Array_join (separator : string) (items : list value)
  : result string :=
  match items with
  | [] => Ok ""
  | x :: rest =>
      let? s := join_element x in
      let? r := join_rest separator rest in
      Ok (s ++ r)
  end.

(** [s.replace(pattern, replacement)] and [s.toLowerCase()] on an untyped
    receiver: only strings have the methods. *)
Definition replace (v : value) (pattern replacement : string) : result string :=
  match v with
  | VStr s => Ok (String_replace pattern replacement s)
  | _ => Throw TypeError
  end.

Definition toLowerCase (v : value) : result string :=
  match v with
  | VStr s => Ok (String_toLowerCase s)
  | _ => Throw TypeError
  end.

(** ** Types of [index.ts] *)

Record InlineData : Type := {
  mime_type : value;
  data : string
}.

Record ContentPart : Type := {
  text : option value;
  inline_data : option InlineData
}.

Record Content : Type := {
  parts : list ContentPart
}.

(** [contents[0].parts.push(part)]. *)
Definition push_to_first (contents : list Content) (part : ContentPart)
  : result (list Content) :=
  match contents with
  | [] => Throw TypeError
  | c :: rest => Ok ({| parts := parts c ++ [part] |} :: rest)
  end.

(** Lines 59-81 of [generateGeminiResponse]: the arguments handed to
    [getGeminiTextGeneration]. *)
Definition upstream_arguments (data : value) : result (value * list Content) :=
  let? model_field := property data "model" in
  let model := or_else model_field (VStr "gemini-1.5-flash") in
  let? prompt_field := property data "prompt" in
  let prompt := or_else prompt_field (VStr "No prompt provided") in
  let? mimeType_field := property data "mimeType" in
  let mimeType := or_else mimeType_field (VStr "text/plain") in
  let? inlineData := property data "inlineData" in
  let contents :=
    [ {| parts := [ {| text := Some prompt; inline_data := None |} ] |} ] in
  let? contents :=
    if truthy inlineData
    then
      let? buffer := Buffer_from inlineData in
      push_to_first contents
        {| text := None;
           inline_data := Some {| mime_type := mimeType;
                                  data := base64 buffer |} |}
    else Ok contents in
  Ok (model, contents).

(** The completion object returned to the client. *)

Record Message : Type := {
  role : string;
  content : string;
  refusal : value
}.

Record Choice : Type := {
  index : nat;
  message : Message;
  logprobs : value;
  finish_reason : string
}.

Record Usage : Type := {
  prompt_tokens : value;
  completion_tokens : value;
  total_tokens : value
}.

Record CompletionResponse : Type := {
  id : string;
  object : string;
  created : Z;
  model : value;
  choices : list Choice;
  usage : Usage;
  system_fingerprint : string
}.

(** ** The environment of a run and the effects of a computation *)

(** The two provider calls: [GET .../v1beta/models?key=KEY] and
    [POST .../v1beta/models/MODEL:generateContent?key=KEY] with the JSON body
    [{ contents }]. *)
Inductive HttpRequest : Type :=
| GET_models (key : string)
| POST_generateContent (model : value) (key : string) (contents : list Content).

Inductive HttpOutcome : Type :=
| Responded (status : Z) (data : value)
| NoResponse.

Record Env : Type := {
  GOOGLE_API_KEY : string;               (* [process.env.GOOGLE_API_KEY || ""] *)
  upstream : HttpRequest -> HttpOutcome; (* the provider behind [axios] *)
  Date_now : Z;                          (* milliseconds *)
  Math_random_base36 : string            (* [Math.random().toString(36)] *)
}.

Record State : Type := {
  calls : list HttpRequest;              (* requests issued, oldest first *)
  console : list (string * exn)          (* [console.error(label, error)] *)
}.

Definition M (A : Type) : Type := State -> result A * State.

Definition ret {A} (a : A) : M A := fun st => (Ok a, st).

Definition throw {A} (e : exn) : M A := fun st => (Throw e, st).

Definition bind {A B} (m : M A) (k : A -> M B) : M B :=
  fun st =>
    match m st with
    | (Ok a, st') => k a st'
    | (Throw e, st') => (Throw e, st')
    end.

Definition lift {A} (r : result A) : M A := fun st => (r, st).

Definition try_catch {A} (m : M A) (handler : exn -> M A) : M A :=
  fun st =>
    match m st with
    | (Ok a, st') => (Ok a, st')
    | (Throw e, st') => handler e st'
    end.

Notation "x <- m ;; k" := (bind m (fun x => k))
  (at level 61, m at next level, right associativity).
Notation "m ;;; k" := (bind m (fun _ => k))
  (at level 61, right associativity).

Definition console_error (label : string) (error : exn) : M unit :=
  fun st =>
    (Ok tt, {| calls := calls st; console := console st ++ [(label, error)] |}).

(** [axios.get] / [axios.post]: the request is issued, and the promise
    resolves to [response.data] exactly for a status in [200, 300). *)
Definition axios (env : Env) (request : HttpRequest) : M value :=
  fun st =>
    let st' := {| calls := calls st ++ [request]; console := console st |} in
    match upstream env request with
    | Responded status data =>
        if ((200 <=? status) && (status <? 300))%Z
        then (Ok data, st')
        else (Throw AxiosError, st')
    | NoResponse => (Throw AxiosError, st')
    end.

(** ** The functions of [index.ts] *)

(** A value substituted into a template literal: a string stands for
    itself, and any other value goes through the string conversion, which
    can throw. *)
Definition template_string (v : value) : result string :=
  match v with
  | VStr s => Ok s
  | VUndefined => Ok "undefined"
  | VNull => Ok "null"
  | VBool _ | VNum _ | VArr _ | VObj _ => ToString v
  end.

(** The URL is built inside the [try], from [model] and the key, before
    [axios.post] is called; the call is recorded with the model whose
    rendering is the path segment. *)
Definition getGeminiTextGeneration (env : Env) (model : value)
    (contents : list Content) : M value :=
  if negb (truthy (VStr (GOOGLE_API_KEY env)))
  then throw (Error "GOOGLE_API_KEY environment variable is not set")
  else
    try_catch
      (url_model <- lift (template_string model) ;;
       response_data <-
         axios env (POST_generateContent model (GOOGLE_API_KEY env) contents) ;;
       ret response_data)
      (fun error =>
         console_error "Error generating text:" error ;;;
         throw (Error "Failed to generate text")).

Definition getGeminiModels (env : Env) : M value :=
  if negb (truthy (VStr (GOOGLE_API_KEY env)))
  then throw (Error "GOOGLE_API_KEY environment variable is not set")
  else
    try_catch
      (response_data <- axios env (GET_models (GOOGLE_API_KEY env)) ;;
       ret response_data)
      (fun error =>
         console_error "Error fetching models:" error ;;;
         throw (Error "Failed to fetch Gemini models")).

(** [Math.random().toString(36).substr(2, 9)]. *)
Definition generateUniqueId (env : Env) : string :=
  substring 2 9 (Math_random_base36 env).

(** [parts.map((part) => part.text).join("")] on the elements of [parts]. *)
Definition parts_text (part_items : list value) : result string :=
  let? texts := Array_map (fun part _ => property part "text") part_items in
  Array_join "" texts.

(** [candidate.content.parts.map((part) => part.text).join("")]. *)
Definition candidate_text (candidate : value) : result string :=
  let? candidate_content := property candidate "content" in
  let? candidate_parts := property candidate_content "parts" in
  let? part_items := as_array candidate_parts in
  parts_text part_items.

(** Lines 86-107: the object literal [transformedResponse]. *)
Definition transformedResponse (env : Env) (model geminiResponse : value)
  : result CompletionResponse :=
  let id := "chatcmpl-" ++ generateUniqueId env in
  let created := (Date_now env / 1000)%Z in
  let? candidates := property geminiResponse "candidates" in
  let? candidate_items := as_array candidates in
  let? choices :=
    Array_map
      (fun candidate index =>
         let? content := candidate_text candidate in
         let? finishReason := property candidate "finishReason" in
         let? finish_reason := toLowerCase finishReason in
         Ok {| index := index;
               message := {| role := "assistant";
                             content := content;
                             refusal := VNull |};
               logprobs := VNull;
               finish_reason := finish_reason |})
      candidate_items in
  let? usageMetadata := property geminiResponse "usageMetadata" in
  let? promptTokenCount := property usageMetadata "promptTokenCount" in
  let? usageMetadata := property geminiResponse "usageMetadata" in
  let? candidatesTokenCount := property usageMetadata "candidatesTokenCount" in
  let? usageMetadata := property geminiResponse "usageMetadata" in
  let? totalTokenCount := property usageMetadata "totalTokenCount" in
  Ok {| id := id;
        object := "chat.completion";
        created := created;
        model := model;
        choices := choices;
        usage := {| prompt_tokens := promptTokenCount;
                    completion_tokens := candidatesTokenCount;
                    total_tokens := totalTokenCount |};
        system_fingerprint := "fp_3aa7262c27" |}.

Definition generateGeminiResponse (env : Env) (data : value)
  : M CompletionResponse :=
  arguments <- lift (upstream_arguments data) ;;
  let model := fst arguments in
  let contents := snd arguments in
  geminiResponse <- getGeminiTextGeneration env model contents ;;
  lift (transformedResponse env model geminiResponse).

(** ** The routes *)

Inductive ResponseBody : Type :=
| MessageBody (message : string)            (* [{ message }] *)
| ModelNamesBody (modelNames : list string)
| CompletionBody (response : CompletionResponse).

Record HttpResponse : Type := {
  status : Z;
  body : ResponseBody
}.

(** [res.json(body)] and [res.status(code).json(body)]. *)
Definition res_json (b : ResponseBody) : HttpResponse :=
  {| status := 200; body := b |}.

Definition res_status_json (code : Z) (b : ResponseBody) : HttpResponse :=
  {| status := code; body := b |}.

(** [models.models.map((model) => model.name.replace("models/", ""))]. *)
Definition modelNames (models : value) : result (list string) :=
  let? models_models := property models "models" in
  let? model_items := as_array models_models in
  Array_map
    (fun model _ =>
       let? name := property model "name" in
       replace name "models/" "")
    model_items.

Definition get_v1_models (env : Env) : M HttpResponse :=
  try_catch
    (models <- getGeminiModels env ;;
     names <- lift (modelNames models) ;;
     ret (res_json (ModelNamesBody names)))
    (fun error =>
       console_error "Error fetching models:" error ;;;
       ret (res_status_json 500 (MessageBody "Failed to fetch Gemini models"))).

(** [req_body] is what the JSON middleware left in [req.body]; the strict
    parser of line 17 passes on objects and arrays only. *)
Definition post_v1_chat_completions (env : Env) (req_body : value)
  : M HttpResponse :=
  try_catch
    (response <- generateGeminiResponse env req_body ;;
     ret (res_json (CompletionBody response)))
    (fun error =>
       console_error "Error generating response:" error ;;;
       ret (res_status_json 500 (MessageBody "Failed to generate response"))).

Definition initial_state : State := {| calls := []; console := [] |}.

(** ** The data model of the specification, as predicates on values *)

Definition default_model : value := VStr "gemini-1.5-flash".
Definition default_prompt : value := VStr "No prompt provided".
Definition default_mimeType : value := VStr "text/plain".

(** The error of a missing API key. *)
Definition ConfigurationError : exn :=
  Error "GOOGLE_API_KEY environment variable is not set".

(** A field of a request object, [undefined] when the key is absent. *)
Definition field (data : value) (k : string) : value :=
  match data with
  | VObj fields =>
      match lookup k fields with Some v => v | None => VUndefined end
  | _ => VUndefined
  end.

Definition optional_string (v : value) : bool :=
  match v with
  | VUndefined | VStr _ => true
  | _ => false
  end.

Definition byte_value (v : value) : bool :=
  match v with
  | VNum n => ((0 <=? n) && (n <? 256))%Z
  | _ => false
  end.

(** Raw bytes in a JSON body: a string, or an array of numbers below 256. *)
Definition raw_bytes (v : value) : bool :=
  match v with
  | VStr _ => true
  | VArr items => forallb byte_value items
  | _ => false
  end.

(** CompletionRequest: an object whose [model], [prompt] and [mimeType] are
    strings when given and whose [inlineData] is raw bytes when given. *)
Definition valid_request (data : value) : bool :=
  match data with
  | VObj fields =>
      optional_string (field data "model")
      && optional_string (field data "prompt")
      && optional_string (field data "mimeType")
      && match lookup "inlineData" fields with
         | None => true
         | Some v => raw_bytes v
         end
  | _ => false
  end.

(** The bytes a raw-bytes value stands for. *)
Definition given_byte (v : value) : byte :=
  match v with
  | VNum n => match Byte.of_N (Z.to_N n) with Some b => b | None => x00 end
  | _ => x00
  end.

Definition given_bytes (v : value) : list byte :=
  match v with
  | VStr s => list_byte_of_string s
  | VArr items => map given_byte items
  | _ => []
  end.

Definition text_part (v : value) : ContentPart :=
  {| text := Some v; inline_data := None |}.

Definition inline_part (mimeType : value) (payload : string) : ContentPart :=
  {| text := None;
     inline_data := Some {| mime_type := mimeType; data := payload |} |}.

(** A request object without the key [k]. *)
Fixpoint remove_key (k : string) (fields : list (string * value))
  : list (string * value) :=
  match fields with
  | [] => []
  | (k', v) :: rest =>
      if k' =? k then remove_key k rest else (k', v) :: remove_key k rest
  end.

(** An identifier without its leading ["models/"]. *)
Definition without_models_prefix (name : string) : string :=
  if prefix "models/" name then string_drop 7 name else name.

(** The names of a model-list answer [{ models: [{ name: "..." }, ...] }]. *)
Definition model_name (m : value) : option string :=
  match m with
  | VObj fields =>
      match lookup "name" fields with Some (VStr s) => Some s | _ => None end
  | _ => None
  end.

Fixpoint all_some {A} (xs : list (option A)) : option (list A) :=
  match xs with
  | [] => Some []
  | Some a :: rest => option_map (cons a) (all_some rest)
  | None :: _ => None
  end.

Definition listed_names (answer : value) : option (list string) :=
  match answer with
  | VObj fields =>
      match lookup "models" fields with
      | Some (VArr items) => all_some (map model_name items)
      | _ => None
      end
  | _ => None
  end.

(** UpstreamResponse: candidates, each with content parts and a finish
    reason, and usage metadata.  A part carries a string [text] or none. *)
Definition part_text (part : value) : option string :=
  match part with
  | VObj fields =>
      match lookup "text" fields with Some (VStr s) => Some s | _ => None end
  | _ => None
  end.

Definition is_part (part : value) : bool :=
  match part with
  | VObj fields =>
      match lookup "text" fields with
      | None | Some (VStr _) => true
      | Some _ => false
      end
  | _ => false
  end.

(** A part whose [text], if any, is a string ([null] counts as none). *)
Definition textual (part : value) : bool :=
  match field part "text" with
  | VUndefined | VNull | VStr _ => true
  | _ => false
  end.

Definition candidate_parts (candidate : value) : option (list value) :=
  match field (field candidate "content") "parts" with
  | VArr part_items => Some part_items
  | _ => None
  end.

Definition is_candidate (candidate : value) : bool :=
  match candidate_parts candidate with
  | Some part_items => forallb is_part part_items
  | None => false
  end
  && match field candidate "finishReason" with VStr _ => true | _ => false end.

Definition response_candidates (answer : value) : option (list value) :=
  match field answer "candidates" with
  | VArr items => Some items
  | _ => None
  end.

Definition is_upstream_response (answer : value) : bool :=
  match response_candidates answer with
  | Some items => forallb is_candidate items
  | None => false
  end
  && match field answer "usageMetadata" with VObj _ => true | _ => false end.

(** The text parts of a candidate, concatenated in order. *)
Fixpoint concat_text_parts (part_items : list value) : string :=
  match part_items with
  | [] => ""
  | part :: rest =>
      match part_text part with
      | Some s => s ++ concat_text_parts rest
      | None => concat_text_parts rest
      end
  end.

Definition candidate_concat (candidate : value) : string :=
  match candidate_parts candidate with
  | Some part_items => concat_text_parts part_items
  | None => ""
  end.

(** The provider answered [request] with a 2xx status and body [answer]. *)
Definition answers (env : Env) (request : HttpRequest) (answer : value) : Prop :=
  exists status,
    upstream env request = Responded status answer
    /\ (200 <= status < 300)%Z.

(** The provider did not answer [request] with a 2xx status. *)
Definition unanswered (env : Env) (request : HttpRequest) : Prop :=
  match upstream env request with
  | Responded status _ => ~ (200 <= status < 300)%Z
  | NoResponse => True
  end.

(** ** Concrete runs *)

Definition hello_request : value := VObj [("prompt", VStr "Hello")].

Definition empty_inline_request : value :=
  VObj [("prompt", VStr "Hello"); ("inlineData", VStr "")].

Definition empty_array_request : value :=
  VObj [("prompt", VStr "Hello"); ("inlineData", VArr [])].

Definition bytes_request : value :=
  VObj [("model", VStr "gemini-pro"); ("prompt", VStr "Describe");
        ("mimeType", VStr "image/png");
        ("inlineData", VArr [VNum 77; VNum 97; VNum 110])].

Definition number_inline_request : value :=
  VObj [("prompt", VStr "Hello"); ("inlineData", VNum 1)].

Definition sample_candidate : value :=
  VObj [("content",
         VObj [("parts",
                VArr [VObj [("text", VStr "Hi ")];
                      VObj [("inlineData",
                             VObj [("mimeType", VStr "image/png");
                                   ("data", VStr "TWFu")])];
                      VObj [("text", VStr "there")]]);
               ("role", VStr "model")]);
        ("finishReason", VStr "STOP")].

Definition sample_answer : value :=
  VObj [("candidates", VArr [sample_candidate]);
        ("usageMetadata",
         VObj [("promptTokenCount", VNum 1);
               ("candidatesTokenCount", VNum 2);
               ("totalTokenCount", VNum 3)])].

Definition sample_models : value :=
  VObj [("models",
         VArr [VObj [("name", VStr "models/gemini-1.5-flash");
                     ("displayName", VStr "Gemini 1.5 Flash")];
               VObj [("name", VStr "models/gemini-pro")]])].

Definition nested_models : value :=
  VObj [("models",
         VArr [VObj [("name", VStr "publishers/google/models/gemini-pro")]])].

Definition sample_upstream (request : HttpRequest) : HttpOutcome :=
  match request with
  | GET_models _ => Responded 200 sample_models
  | POST_generateContent _ _ _ => Responded 200 sample_answer
  end.

Definition sample_env : Env :=
  {| GOOGLE_API_KEY := "secret";
     upstream := sample_upstream;
     Date_now := 1700000000123;
     Math_random_base36 := "0.4fzyo82mvyr" |}.

Definition keyless_env : Env :=
  {| GOOGLE_API_KEY := "";
     upstream := sample_upstream;
     Date_now := 1700000000123;
     Math_random_base36 := "0.4fzyo82mvyr" |}.

Definition nested_env : Env :=
  {| GOOGLE_API_KEY := "secret";
     upstream := fun _ => Responded 200 nested_models;
     Date_now := 1700000000123;
     Math_random_base36 := "0.4fzyo82mvyr" |}.

Definition failing_env : Env :=
  {| GOOGLE_API_KEY := "secret";
     upstream := fun _ => Responded 503 VNull;
     Date_now := 1700000000123;
     Math_random_base36 := "0.4fzyo82mvyr" |}.

(** ** Effects of a run, for stating what the routes do to the state *)

(** The state after [request] was issued. *)
Definition issued (st : State) (request : HttpRequest) : State :=
  {| calls := calls st ++ [request]; console := console st |}.

(** The state after [console.error(label, error)]. *)
Definition logged (st : State) (label : string) (error : exn) : State :=
  {| calls := calls st; console := console st ++ [(label, error)] |}.

(** The body of a 2xx answer to [request], if the provider gives one. *)
Definition resolved (env : Env) (request : HttpRequest) : option value :=
  match upstream env request with
  | Responded status data =>
      if ((200 <=? status) && (status <? 300))%Z then Some data else None
  | NoResponse => None
  end.

Definition nullish (v : value) : bool :=
  match v with
  | VUndefined | VNull => true
  | _ => false
  end.

Definition models_500 : HttpResponse :=
  {| status := 500; body := MessageBody "Failed to fetch Gemini models" |}.

Definition completions_500 : HttpResponse :=
  {| status := 500; body := MessageBody "Failed to generate response" |}.

(** A provider that never answers, and one that answers 200 with [{}]. *)
Definition silent_env : Env :=
  {| GOOGLE_API_KEY := "secret";
     upstream := fun _ => NoResponse;
     Date_now := 1700000000123;
     Math_random_base36 := "0.4fzyo82mvyr" |}.

Definition shapeless_env : Env :=
  {| GOOGLE_API_KEY := "secret";
     upstream := fun _ => Responded 200 (VObj []);
     Date_now := 1700000000123;
     Math_random_base36 := "0.4fzyo82mvyr" |}.

End WithRuntime.

(** * Properties *)

Example base64_Man : base64 (list_byte_of_string "Man") = "TWFu".
Proof. reflexivity. Qed.

Example base64_Ma : base64 (list_byte_of_string "Ma") = "TWE=".
Proof. reflexivity. Qed.

Example base64_M : base64 (list_byte_of_string "M") = "TQ==".
Proof. reflexivity. Qed.

Example base64_foobar :
  map (fun s => base64 (list_byte_of_string s))
    [""; "f"; "fo"; "foo"; "foob"; "fooba"; "foobar"]
  = [""; "Zg=="; "Zm8="; "Zm9v"; "Zm9vYg=="; "Zm9vYmE="; "Zm9vYmFy"].
Proof. reflexivity. Qed.

Example base64_high_bytes : base64 [xfb; xff; xfe] = "+//+".
Proof. reflexivity. Qed.

Example ToUint8_wraps : map ToUint8 [256; -1; 77]%Z = [x00; xff; x4d].
Proof. reflexivity. Qed.

Example replace_once :
  String_replace "models/" "" "models/models/x" = "models/x".
Proof. reflexivity. Qed.

(** ** Base64 loses nothing *)

Lemma below_forallb (P : N -> bool) (k : nat) :
  forallb (fun i => P (N.of_nat i)) (seq 0 k) = true ->
  forall n, (n < N.of_nat k)%N -> P n = true.
Proof.
  intros H n Hn. rewrite forallb_forall in H.
  rewrite <- (N2Nat.id n). apply H. apply in_seq. lia.
Qed.

Lemma sextet_decodes n :
  (n < 64)%N ->
  sextet_value (sextet n) = Some n /\ is_pad (sextet n) = false.
Proof.
  intros Hn.
  pose proof (below_forallb
                (fun m =>
                   match sextet_value (sextet m) with
                   | Some k => (k =? m)%N
                   | None => false
                   end && negb (is_pad (sextet m)))
                64 eq_refl n Hn) as H.
  cbv beta in H. apply andb_true_iff in H as [H1 H2].
  destruct (sextet_value (sextet n)) as [k|]; [|discriminate].
  apply N.eqb_eq in H1. apply negb_true_iff in H2. now subst.
Qed.

Lemma group_checked x y :
  (x < 256)%N -> (y < 256)%N -> group_check x y = true.
Proof.
  intros Hx Hy.
  assert (H : forallb
                (fun i =>
                   forallb (fun j => group_check (N.of_nat i) (N.of_nat j))
                     (seq 0 256))
                (seq 0 256)
              = true) by (vm_compute; reflexivity).
  pose proof (below_forallb
                (fun a =>
                   forallb (fun j => group_check a (N.of_nat j)) (seq 0 256))
                256 H x Hx) as Hrow.
  exact (below_forallb (group_check x) 256 Hrow y Hy).
Qed.

Lemma to_N_below (b : byte) : (Byte.to_N b < 256)%N.
Proof. pose proof (Byte.to_N_bounded b). lia. Qed.

Lemma byte_of_to_N (b : byte) : byte_of_N (Byte.to_N b) = b.
Proof. unfold byte_of_N. now rewrite Byte.of_to_N. Qed.

Lemma group_facts x y :
  (x < 256)%N -> (y < 256)%N ->
  let s1 := N.shiftr x 2 in
  let s2 := N.lor (N.shiftl (N.land x 3) 4) (N.shiftr y 4) in
  let s2' := N.shiftl (N.land x 3) 4 in
  let s3 := N.lor (N.shiftl (N.land x 15) 2) (N.shiftr y 6) in
  let s3' := N.shiftl (N.land y 15) 2 in
  let s4 := N.land y 63 in
  ((s1 < 64 /\ s2 < 64 /\ s2' < 64 /\ s3 < 64 /\ s3' < 64 /\ s4 < 64)
   /\ N.lor (N.shiftl s1 2) (N.shiftr s2 4) = x
   /\ N.lor (N.shiftl s1 2) (N.shiftr s2' 4) = x
   /\ N.lor (N.shiftl (N.land s2 15) 4) (N.shiftr s3' 2) = y
   /\ N.lor (N.shiftl (N.land s2 15) 4) (N.land y 15) = y
   /\ N.shiftr s3 2 = N.land x 15
   /\ N.lor (N.shiftl (N.land s3 3) 6) s4 = y)%N.
Proof.
  intros Hx Hy. pose proof (group_checked x y Hx Hy) as H.
  unfold group_check in H. cbv zeta in H |- *.
  repeat (apply andb_true_iff in H as [H ?]).
  repeat match goal with
         | E : (_ <? _)%N = true |- _ => apply N.ltb_lt in E
         | E : (_ =? _)%N = true |- _ => apply N.eqb_eq in E
         end.
  repeat split; assumption.
Qed.

Lemma list_ind3 {A} (P : list A -> Prop) :
  P [] ->
  (forall a, P [a]) ->
  (forall a b, P [a; b]) ->
  (forall a b c rest, P rest -> P (a :: b :: c :: rest)) ->
  forall l, P l.
Proof.
  intros H0 H1 H2 H3 l.
  enough (H : P l /\ (forall a, P (a :: l)) /\ (forall a b, P (a :: b :: l)))
    by apply H.
  induction l as [|x l [IH0 [IH1 IH2]]].
  - repeat split; auto.
  - repeat split; auto.
Qed.

(** Decoding the encoding of a byte sequence gives the sequence back. *)
Lemma base64_decode_encode (bytes : list byte) :
  base64_decode (base64 bytes) = Some bytes.
Proof.
  induction bytes as [|a|a b|a b c rest IH] using list_ind3.
  - reflexivity.
  - pose proof (group_facts _ _ (to_N_below a) (to_N_below a)) as F.
    cbv zeta in F. destruct F as ((L1 & _ & L2 & _) & _ & E & _).
    cbn [base64 base64_decode].
    rewrite (proj1 (sextet_decodes _ L1)), (proj1 (sextet_decodes _ L2)).
    change (is_pad "=") with true. change ("" =? "") with true.
    cbn [andb]. unfold first_byte. rewrite E. now rewrite byte_of_to_N.
  - pose proof (group_facts _ _ (to_N_below a) (to_N_below b)) as F.
    cbv zeta in F.
    destruct F as ((L1 & L2 & _ & _ & L3 & _) & E1 & _ & E2 & _).
    cbn [base64 base64_decode].
    rewrite (proj1 (sextet_decodes _ L1)), (proj1 (sextet_decodes _ L2)).
    rewrite (proj2 (sextet_decodes _ L3)), (proj1 (sextet_decodes _ L3)).
    change (is_pad "=") with true. change ("" =? "") with true.
    cbv iota. unfold first_byte, second_byte. rewrite E1, E2.
    now rewrite !byte_of_to_N.
  - pose proof (group_facts _ _ (to_N_below a) (to_N_below b)) as F.
    pose proof (group_facts _ _ (to_N_below b) (to_N_below c)) as G.
    cbv zeta in F, G.
    destruct F as ((L1 & L2 & _) & E1 & _ & _ & E2 & _).
    destruct G as ((_ & _ & _ & L3 & _ & L4) & _ & _ & _ & _ & E3 & E4).
    cbn [base64 base64_decode].
    rewrite (proj1 (sextet_decodes _ L1)), (proj1 (sextet_decodes _ L2)).
    rewrite (proj2 (sextet_decodes _ L3)), (proj1 (sextet_decodes _ L3)).
    rewrite (proj2 (sextet_decodes _ L4)), (proj1 (sextet_decodes _ L4)).
    rewrite IH. unfold first_byte, second_byte, third_byte. cbn [option_map].
    rewrite E1, E3, E2, E4. now rewrite !byte_of_to_N.
Qed.

(** Distinct byte sequences have distinct encodings. *)
Lemma base64_injective (xs ys : list byte) :
  base64 xs = base64 ys -> xs = ys.
Proof.
  intros H. pose proof (base64_decode_encode xs) as Hx.
  rewrite H, base64_decode_encode in Hx. now inversion Hx.
Qed.

(** ** Strings *)

Lemma prefix_app (p r : string) : prefix p (p ++ r) = true.
Proof.
  induction p as [|c p IH]; simpl; [now destruct r|].
  destruct (ascii_dec c c) as [_|ne]; [exact IH | now elim ne].
Qed.

Lemma string_drop_app (p r : string) : string_drop (length p) (p ++ r) = r.
Proof.
  induction p as [|c p IH]; simpl; [now destruct r | exact IH].
Qed.

Lemma String_replace_unfold (p rep s : string) :
  String_replace p rep s =
  if prefix p s then rep ++ string_drop (length p) s
  else match s with
       | EmptyString => EmptyString
       | String c s' => String c (String_replace p rep s')
       end.
Proof. destruct s; reflexivity. Qed.

(** A leading occurrence is the one that is replaced. *)
Lemma String_replace_leading (p rep r : string) :
  String_replace p rep (p ++ r) = rep ++ r.
Proof.
  rewrite String_replace_unfold, prefix_app, string_drop_app.
  reflexivity.
Qed.

Lemma occurs_unfold (p s : string) :
  occurs p s =
  prefix p s || match s with
                | EmptyString => false
                | String _ s' => occurs p s'
                end.
Proof. destruct s; reflexivity. Qed.

(** Without an occurrence the string is returned as it is. *)
Lemma String_replace_absent (p rep s : string) :
  occurs p s = false -> String_replace p rep s = s.
Proof.
  induction s as [|c s IH]; intros H;
    rewrite String_replace_unfold; rewrite occurs_unfold in H;
    apply orb_false_iff in H as [H1 H2]; rewrite H1.
  - reflexivity.
  - f_equal. auto.
Qed.

(** ** Arrays *)

Lemma Array_map_from_length {B} (f : value -> nat -> result B) items :
  forall i ys, Array_map_from i f items = Ok ys -> List.length ys = List.length items.
Proof.
  induction items as [|x rest IH]; simpl; intros i ys H.
  - now inversion H.
  - destruct (f x i) as [y|e]; simpl in H; [|discriminate].
    destruct (Array_map_from (S i) f rest) as [ys'|e] eqn:E; simpl in H;
      [|discriminate].
    inversion H; subst. simpl. f_equal. eauto.
Qed.

(** Each output element is the callback's result on the input element at the
    same position. *)
Lemma Array_map_from_nth {B} (f : value -> nat -> result B) items :
  forall i ys k x,
    Array_map_from i f items = Ok ys ->
    nth_error items k = Some x ->
    exists y, nth_error ys k = Some y /\ f x (i + k) = Ok y.
Proof.
  induction items as [|x0 rest IH]; simpl; intros i ys k x H Hk.
  - destruct k; discriminate.
  - destruct (f x0 i) as [y|e] eqn:Ef; simpl in H; [|discriminate].
    destruct (Array_map_from (S i) f rest) as [ys'|e] eqn:E; simpl in H;
      [|discriminate].
    inversion H; subst. destruct k as [|k]; simpl in *.
    + inversion Hk; subst. exists y. now rewrite Nat.add_0_r.
    + destruct (IH _ _ _ _ E Hk) as [y' [H1 H2]].
      exists y'. split; [exact H1|].
      now rewrite Nat.add_succ_r.
Qed.

(** A callback that succeeds on every element makes [map] succeed. *)
Lemma Array_map_from_total {B} (f : value -> nat -> result B)
    (h : value -> nat -> B) items :
  (forall x i, In x items -> f x i = Ok (h x i)) ->
  forall i, exists ys, Array_map_from i f items = Ok ys.
Proof.
  induction items as [|x rest IH]; simpl; intros Hf i.
  - now exists [].
  - rewrite (Hf x i (or_introl eq_refl)). simpl.
    destruct (IH (fun x i H => Hf x i (or_intror H)) (S i)) as [ys E].
    rewrite E. simpl. eauto.
Qed.

(** A callback that ignores the index and succeeds is a plain [map]. *)
Lemma Array_map_from_map {B} (g : value -> result B) (h : value -> B) items :
  (forall x, In x items -> g x = Ok (h x)) ->
  forall i, Array_map_from i (fun x _ => g x) items = Ok (map h items).
Proof.
  induction items as [|x rest IH]; simpl; intros Hg i; [reflexivity|].
  rewrite (Hg x (or_introl eq_refl)). simpl.
  rewrite IH by auto. reflexivity.
Qed.

Lemma Array_map_from_Forall {B} (P : B -> Prop)
    (f : value -> nat -> result B) items :
  (forall x i y, f x i = Ok y -> P y) ->
  forall i ys, Array_map_from i f items = Ok ys -> Forall P ys.
Proof.
  intros Hf. induction items as [|x rest IH]; simpl; intros i ys H.
  - inversion H. constructor.
  - destruct (f x i) as [y|e] eqn:Ef; simpl in H; [|discriminate].
    destruct (Array_map_from (S i) f rest) as [ys'|e] eqn:E; simpl in H;
      [|discriminate].
    inversion H; subst. constructor; eauto.
Qed.

Lemma all_some_map {A B} (g : A -> option B) (xs : list A) (ys : list B) :
  all_some (map g xs) = Some ys ->
  List.length ys = List.length xs
  /\ forall k x, nth_error xs k = Some x ->
       exists y, nth_error ys k = Some y /\ g x = Some y.
Proof.
  revert ys. induction xs as [|x rest IH]; simpl; intros ys H.
  - inversion H; subst. split; [reflexivity|]. intros [|k] x Hk; discriminate.
  - destruct (g x) as [y|] eqn:Eg; [|discriminate].
    destruct (all_some (map g rest)) as [ys'|] eqn:E; [|discriminate].
    simpl in H. inversion H; subst.
    destruct (IH _ eq_refl) as [Hlen Hnth]. split; [simpl; now f_equal|].
    intros [|k] x' Hk; simpl in *.
    + inversion Hk; subst. eauto.
    + eauto.
Qed.

(** ** The provider calls *)

Lemma key_set (env : Env) :
  GOOGLE_API_KEY env <> "" ->
  negb (truthy (VStr (GOOGLE_API_KEY env))) = false.
Proof.
  intros H. simpl. apply String.eqb_neq in H. now rewrite H.
Qed.

Lemma key_unset (env : Env) :
  GOOGLE_API_KEY env = "" ->
  negb (truthy (VStr (GOOGLE_API_KEY env))) = true.
Proof. intros H. now rewrite H. Qed.

Lemma axios_answered env request answer st :
  answers env request answer ->
  axios env request st =
  (Ok answer, {| calls := calls st ++ [request]; console := console st |}).
Proof.
  intros [status [H [H1 H2]]]. unfold axios. rewrite H.
  apply Z.leb_le in H1. apply Z.ltb_lt in H2. now rewrite H1, H2.
Qed.

Lemma getGeminiModels_answered env answer st :
  GOOGLE_API_KEY env <> "" ->
  answers env (GET_models (GOOGLE_API_KEY env)) answer ->
  getGeminiModels env st =
  (Ok answer,
   {| calls := calls st ++ [GET_models (GOOGLE_API_KEY env)];
      console := console st |}).
Proof.
  intros Hk Ha. unfold getGeminiModels. rewrite (key_set _ Hk).
  unfold try_catch, bind. now rewrite (axios_answered _ _ _ _ Ha).
Qed.

(** ** The model list *)

Lemma model_names_mapped items :
  forall names i,
    all_some (map model_name items) = Some names ->
    Array_map_from i
      (fun model (_ : nat) =>
         let? name := property model "name" in replace name "models/" "")
      items
    = Ok (map (String_replace "models/" "") names).
Proof.
  induction items as [|m rest IH]; simpl; intros names i H.
  - now inversion H.
  - destruct (model_name m) as [s|] eqn:Em; [|discriminate].
    destruct (all_some (map model_name rest)) as [names'|] eqn:E;
      [|discriminate].
    simpl in H. inversion H; subst.
    destruct m as [| | | | |?|fields]; try discriminate. simpl in Em |- *.
    destruct (lookup "name" fields) as [[| | | |s'| |]|]; try discriminate.
    inversion Em; subst. simpl. rewrite (IH _ _ eq_refl). reflexivity.
Qed.

Lemma modelNames_listed answer names :
  listed_names answer = Some names ->
  modelNames answer = Ok (map (String_replace "models/" "") names).
Proof.
  intros H. destruct answer as [| | | | |?|fields]; try discriminate.
  unfold modelNames. simpl in H |- *.
  destruct (lookup "models" fields) as [[| | | | |items|]|]; try discriminate.
  simpl. now apply model_names_mapped.
Qed.

(** C3, as amended: the list returned by [GET /v1/models] has the length and
    the order of the provider's list; an identifier that begins with
    ["models/"] has exactly that prefix removed, and an identifier in which
    ["models/"] does not occur is returned unchanged. *)
Theorem models_prefix_removed env st answer names :
  GOOGLE_API_KEY env <> "" ->
  answers env (GET_models (GOOGLE_API_KEY env)) answer ->
  listed_names answer = Some names ->
  exists out,
    fst (get_v1_models env st) = Ok (res_json (ModelNamesBody out))
    /\ List.length out = List.length names
    /\ forall k name,
         nth_error names k = Some name ->
         exists o,
           nth_error out k = Some o
           /\ (forall rest, name = "models/" ++ rest -> o = rest)
           /\ (occurs "models/" name = false -> o = name).
Proof.
  intros Hk Ha Hn.
  exists (map (String_replace "models/" "") names).
  split; [|split].
  - unfold get_v1_models, try_catch, bind.
    rewrite (getGeminiModels_answered _ _ _ Hk Ha).
    unfold lift. now rewrite (modelNames_listed _ _ Hn).
  - apply length_map.
  - intros k name Hnth.
    exists (String_replace "models/" "" name). split; [|split].
    + now apply map_nth_error.
    + intros rest ->. apply (String_replace_leading "models/" "" rest).
    + apply String_replace_absent.
Qed.

Section Properties.
Context {runtime : Runtime}.

(** ** The generation call *)

(** A string model is its own path segment. *)
Lemma template_string_or_else v default :
  optional_string v = true ->
  exists segment, template_string (or_else v (VStr default)) = Ok segment.
Proof.
  destruct v as [| | | |s| |]; try discriminate; intros _.
  - simpl. eauto.
  - unfold or_else. destruct (truthy (VStr s)); simpl; eauto.
Qed.

Lemma getGeminiTextGeneration_answered env model contents answer st segment :
  GOOGLE_API_KEY env <> "" ->
  template_string model = Ok segment ->
  answers env (POST_generateContent model (GOOGLE_API_KEY env) contents)
    answer ->
  getGeminiTextGeneration env model contents st =
  (Ok answer,
   {| calls :=
        calls st ++ [POST_generateContent model (GOOGLE_API_KEY env) contents];
      console := console st |}).
Proof.
  intros Hk Hs Ha. unfold getGeminiTextGeneration. rewrite (key_set _ Hk).
  unfold try_catch, bind, lift. rewrite Hs.
  now rewrite (axios_answered _ _ _ _ Ha).
Qed.

(** ** Request construction *)

Lemma ToUint8_byte (n : Z) :
  (0 <= n < 256)%Z -> ToUint8 n = given_byte (VNum n).
Proof.
  intros H. unfold ToUint8, given_byte. now rewrite Z.mod_small.
Qed.

Lemma byte_items items :
  forallb byte_value items = true ->
  exists ns,
    integer_items items = Some ns /\ map ToUint8 ns = map given_byte items.
Proof.
  induction items as [|v rest IH]; simpl; intros H.
  - now exists [].
  - apply andb_true_iff in H as [Hv Hrest].
    destruct v as [| | |n| | |]; try discriminate. simpl in Hv.
    apply andb_true_iff in Hv as [H0 H1].
    apply Z.leb_le in H0. apply Z.ltb_lt in H1.
    destruct (IH Hrest) as [ns [E1 E2]].
    exists (n :: ns). split.
    + assert (Hs : safe_integer n = true)
        by (unfold safe_integer; apply Z.leb_le; lia).
      now rewrite Hs, E1.
    + simpl. rewrite E2. f_equal. apply ToUint8_byte. lia.
Qed.

(** [Buffer.from] accepts raw bytes and yields exactly them. *)
Lemma Buffer_from_raw_bytes v :
  raw_bytes v = true -> Buffer_from v = Ok (given_bytes v).
Proof.
  destruct v as [| | | |s|items|]; try discriminate; simpl; intros H.
  - reflexivity.
  - destruct (byte_items _ H) as [ns [E1 E2]]. now rewrite E1, E2.
Qed.

(** The four constants of lines 59-62 and the two shapes of [contents]. *)
Lemma upstream_arguments_unfold data :
  data <> VUndefined -> data <> VNull ->
  upstream_arguments data =
  let model := or_else (field data "model") default_model in
  let prompt := or_else (field data "prompt") default_prompt in
  let mimeType := or_else (field data "mimeType") default_mimeType in
  let inlineData := field data "inlineData" in
  if truthy inlineData
  then
    let? buffer := Buffer_from inlineData in
    Ok (model,
        [ {| parts := [text_part prompt;
                       inline_part mimeType (base64 buffer)] |} ])
  else Ok (model, [ {| parts := [text_part prompt] |} ]).
Proof.
  intros H1 H2.
  destruct data; try contradiction; unfold upstream_arguments; simpl;
    try reflexivity.
  destruct (truthy _); [|reflexivity].
  destruct (Buffer_from _); reflexivity.
Qed.

Lemma valid_request_inlineData data :
  valid_request data = true ->
  field data "inlineData" = VUndefined
  \/ raw_bytes (field data "inlineData") = true.
Proof.
  destruct data as [| | | | | |fields]; try discriminate.
  unfold valid_request. intros H.
  apply andb_true_iff in H as [_ H]. simpl.
  destruct (lookup "inlineData" fields); auto.
Qed.

Lemma raw_bytes_falsy v :
  raw_bytes v = true -> truthy v = false -> v = VStr "".
Proof.
  destruct v as [| | | |s| |]; try discriminate. simpl. intros _ H.
  apply negb_false_iff, String.eqb_eq in H. now subst.
Qed.

(** A valid request always yields arguments for the provider call. *)
Lemma valid_request_arguments data :
  valid_request data = true ->
  exists arguments, upstream_arguments data = Ok arguments.
Proof.
  intros H.
  assert (H1 : data <> VUndefined) by (intros ->; discriminate).
  assert (H2 : data <> VNull) by (intros ->; discriminate).
  rewrite (upstream_arguments_unfold _ H1 H2). cbv zeta.
  destruct (valid_request_inlineData _ H) as [E|E].
  - rewrite E. simpl. eauto.
  - destruct (truthy _); [|eauto].
    rewrite (Buffer_from_raw_bytes _ E). simpl. eauto.
Qed.

Lemma getGeminiTextGeneration_calls env model contents st segment :
  GOOGLE_API_KEY env <> "" ->
  template_string model = Ok segment ->
  calls (snd (getGeminiTextGeneration env model contents st))
  = (calls st
     ++ [POST_generateContent model (GOOGLE_API_KEY env) contents])%list.
Proof.
  intros Hk Hs. unfold getGeminiTextGeneration. rewrite (key_set _ Hk).
  unfold try_catch, bind, lift, axios. rewrite Hs.
  destruct (upstream env _) as [status answer|]; [|reflexivity].
  destruct ((200 <=? status)%Z && (status <? 300)%Z); reflexivity.
Qed.

(** With a key, a request that yields arguments issues exactly one call,
    the [generateContent] call with these arguments. *)
Lemma generateGeminiResponse_calls env data model contents st segment :
  GOOGLE_API_KEY env <> "" ->
  template_string model = Ok segment ->
  upstream_arguments data = Ok (model, contents) ->
  calls (snd (generateGeminiResponse env data st))
  = (calls st
     ++ [POST_generateContent model (GOOGLE_API_KEY env) contents])%list.
Proof.
  intros Hk Hs Ha. unfold generateGeminiResponse, bind at 1, lift at 1.
  rewrite Ha. cbn [fst snd]. unfold bind.
  pose proof (getGeminiTextGeneration_calls env model contents st segment
                Hk Hs) as Hc.
  destruct (getGeminiTextGeneration env model contents st) as [[answer|e] st'];
    simpl in *; exact Hc.
Qed.

(** The model of a valid request is a string, so the URL can be built. *)
Lemma valid_request_model data :
  valid_request data = true ->
  exists segment,
    template_string (or_else (field data "model") default_model)
    = Ok segment.
Proof.
  intros H. apply template_string_or_else.
  destruct data as [| | | | | |fields]; try discriminate.
  unfold valid_request in H.
  now repeat (apply andb_true_iff in H as [H _]).
Qed.

(** C1, as amended: a valid request is sent as one content block whose
    first part is the text part with the (possibly defaulted) prompt; the
    block has exactly that one part when [inlineData] is absent or the empty
    string, and exactly two parts when [inlineData] is a non-empty string or
    a byte array, the second carrying the base64 encoding of the given bytes
    and the given or default mime type. *)
Theorem upstream_content_parts data :
  valid_request data = true ->
  exists rest,
    let model := or_else (field data "model") default_model in
    let contents :=
      [ {| parts :=
             text_part (or_else (field data "prompt") default_prompt)
             :: rest |} ] in
    upstream_arguments data = Ok (model, contents)
    /\ (forall env st,
           GOOGLE_API_KEY env <> "" ->
           calls (snd (generateGeminiResponse env data st))
           = (calls st
              ++ [POST_generateContent model (GOOGLE_API_KEY env) contents])
             %list)
    /\ (field data "inlineData" = VUndefined
        \/ field data "inlineData" = VStr "" ->
        rest = [])
    /\ (field data "inlineData" <> VUndefined ->
        field data "inlineData" <> VStr "" ->
        rest = [ inline_part
                   (or_else (field data "mimeType") default_mimeType)
                   (base64 (given_bytes (field data "inlineData"))) ]).
Proof.
  intros H.
  assert (H1 : data <> VUndefined) by (intros ->; discriminate).
  assert (H2 : data <> VNull) by (intros ->; discriminate).
  pose proof (upstream_arguments_unfold _ H1 H2) as Hu. cbv zeta in Hu.
  cbv zeta.
  destruct (valid_request_inlineData _ H) as [E|E].
  - rewrite E in Hu. simpl in Hu. exists [].
    split; [exact Hu|]. split.
    { intros env st Hk. destruct (valid_request_model _ H) as [segment Hs].
      exact (generateGeminiResponse_calls _ _ _ _ _ _ Hk Hs Hu). }
    split; [reflexivity|]. intros Hne. now elim Hne.
  - destruct (truthy (field data "inlineData")) eqn:Et.
    + rewrite (Buffer_from_raw_bytes _ E) in Hu. simpl in Hu.
      eexists. split; [exact Hu|]. split.
      { intros env st Hk. destruct (valid_request_model _ H) as [segment Hs].
      exact (generateGeminiResponse_calls _ _ _ _ _ _ Hk Hs Hu). }
      split; [|reflexivity].
      intros [E'|E']; rewrite E' in Et; discriminate.
    + exists []. split; [exact Hu|]. split.
      { intros env st Hk. destruct (valid_request_model _ H) as [segment Hs].
      exact (generateGeminiResponse_calls _ _ _ _ _ _ Hk Hs Hu). }
      split; [reflexivity|].
      intros _ Hne. elim Hne. now apply raw_bytes_falsy.
Qed.

(** C7: whatever the request holds, the content built for the provider call
    is one block that starts with the text part, so its parts list is never
    empty; no content is built only when the body is [undefined] or [null]
    or when [Buffer.from] rejects a truthy [inlineData]. *)
Theorem contents_never_empty data :
  match upstream_arguments data with
  | Ok (_, contents) =>
      exists rest,
        contents
        = [ {| parts :=
                 text_part (or_else (field data "prompt") default_prompt)
                 :: rest |} ]
  | Throw e =>
      data = VUndefined \/ data = VNull
      \/ (truthy (field data "inlineData") = true
          /\ Buffer_from (field data "inlineData") = Throw e)
  end.
Proof.
  destruct data as [| | b | n | s | items | fields];
    try (simpl; now auto);
    (rewrite upstream_arguments_unfold by discriminate; cbv zeta;
     destruct (truthy _) eqn:Et; [|now eexists];
     destruct (Buffer_from _) eqn:Eb; simpl; [now eexists | now auto]).
Qed.

(** ** Falsy and absent fields *)

Lemma lookup_remove_key_same k fields : lookup k (remove_key k fields) = None.
Proof.
  induction fields as [|[k' v] rest IH]; simpl; [reflexivity|].
  destruct (k' =? k) eqn:E; [exact IH|]. simpl. now rewrite E.
Qed.

Lemma lookup_remove_key_other k k' fields :
  k' <> k -> lookup k' (remove_key k fields) = lookup k' fields.
Proof.
  intros Hne. induction fields as [|[k0 v] rest IH]; simpl; [reflexivity|].
  destruct (k0 =? k) eqn:E.
  - apply String.eqb_eq in E. subst k0.
    apply not_eq_sym, String.eqb_neq in Hne. now rewrite Hne.
  - simpl. now rewrite IH.
Qed.

Lemma field_remove_key_same k fields :
  field (VObj (remove_key k fields)) k = VUndefined.
Proof. simpl. now rewrite lookup_remove_key_same. Qed.

Lemma field_remove_key_other k k' fields :
  k' <> k -> field (VObj (remove_key k fields)) k' = field (VObj fields) k'.
Proof. intros H. simpl. now rewrite lookup_remove_key_other. Qed.

Lemma or_else_falsy v default :
  truthy v = false -> or_else v default = or_else VUndefined default.
Proof. intros H. unfold or_else. now rewrite H. Qed.

(** A falsy field and a missing field give the same provider arguments. *)
Lemma falsy_field_as_absent fields k v :
  In k ["model"; "prompt"; "mimeType"; "inlineData"] ->
  lookup k fields = Some v ->
  truthy v = false ->
  upstream_arguments (VObj fields)
  = upstream_arguments (VObj (remove_key k fields)).
Proof.
  intros Hk Hl Hv.
  assert (Hf : field (VObj fields) k = v) by (simpl; now rewrite Hl).
  rewrite !upstream_arguments_unfold by discriminate. cbv zeta.
  simpl in Hk.
  destruct Hk as [<-|[<-|[<-|[<-|[]]]]];
    rewrite field_remove_key_same;
    rewrite !field_remove_key_other by discriminate;
    rewrite Hf.
  - now rewrite (or_else_falsy _ _ Hv).
  - now rewrite (or_else_falsy _ _ Hv).
  - now rewrite (or_else_falsy _ _ Hv).
  - now rewrite Hv.
Qed.

(** C9, as amended: a field that is present but falsy (the empty string
    included) is treated exactly like an absent field, so an empty-string
    [model], [prompt] or [mimeType] is replaced by its default and an
    empty-string [inlineData] adds no second part; an empty array is not
    falsy, and an [inlineData] that is the empty array adds a second part
    with an empty payload. *)
Theorem falsy_fields_default fields :
  (forall k v,
      In k ["model"; "prompt"; "mimeType"; "inlineData"] ->
      lookup k fields = Some v ->
      truthy v = false ->
      upstream_arguments (VObj fields)
      = upstream_arguments (VObj (remove_key k fields))
      /\ forall env st,
           post_v1_chat_completions env (VObj fields) st
           = post_v1_chat_completions env (VObj (remove_key k fields)) st)
  /\ truthy (VStr "") = false
  /\ (lookup "inlineData" fields = Some (VStr "") ->
      upstream_arguments (VObj fields)
      = Ok (or_else (field (VObj fields) "model") default_model,
            [ {| parts :=
                   [ text_part
                       (or_else (field (VObj fields) "prompt")
                          default_prompt) ] |} ]))
  /\ (lookup "inlineData" fields = Some (VArr []) ->
      upstream_arguments (VObj fields)
      = Ok (or_else (field (VObj fields) "model") default_model,
            [ {| parts :=
                   [ text_part
                       (or_else (field (VObj fields) "prompt")
                          default_prompt);
                     inline_part
                       (or_else (field (VObj fields) "mimeType")
                          default_mimeType)
                       "" ] |} ])).
Proof.
  split; [|split; [reflexivity|split]].
  - intros k v Hk Hl Hv.
    pose proof (falsy_field_as_absent fields k v Hk Hl Hv) as E.
    split; [exact E|]. intros env st.
    unfold post_v1_chat_completions, generateGeminiResponse.
    now rewrite E.
  - intros H. rewrite upstream_arguments_unfold by discriminate. cbv zeta.
    assert (E : field (VObj fields) "inlineData" = VStr "")
      by (simpl; now rewrite H).
    now rewrite E.
  - intros H. rewrite upstream_arguments_unfold by discriminate. cbv zeta.
    assert (E : field (VObj fields) "inlineData" = VArr [])
      by (simpl; now rewrite H).
    now rewrite E.
Qed.

(** ** Defaults and the provider call *)

(** C6: for [{prompt: "Hello"}] the provider call carries the model
    ["gemini-1.5-flash"] and the contents [[{parts: [{text: "Hello"}]}]]; in
    general an absent [model] becomes ["gemini-1.5-flash"], an absent
    [prompt] becomes ["No prompt provided"] and an absent [mimeType] becomes
    ["text/plain"]. *)
Theorem defaults_applied :
  (forall env st,
      GOOGLE_API_KEY env <> "" ->
      calls (snd (generateGeminiResponse env hello_request st))
      = (calls st
         ++ [POST_generateContent (VStr "gemini-1.5-flash")
               (GOOGLE_API_KEY env)
               [ {| parts := [ {| text := Some (VStr "Hello");
                                  inline_data := None |} ] |} ]])%list)
  /\ (forall fields model contents,
         upstream_arguments (VObj fields) = Ok (model, contents) ->
         (lookup "model" fields = None -> model = VStr "gemini-1.5-flash")
         /\ (lookup "prompt" fields = None ->
             exists rest,
               contents
               = [ {| parts :=
                        {| text := Some (VStr "No prompt provided");
                           inline_data := None |} :: rest |} ])
         /\ (lookup "mimeType" fields = None ->
             forall block part payload,
               In block contents ->
               In part (parts block) ->
               inline_data part = Some payload ->
               mime_type payload = VStr "text/plain")).
Proof.
  split.
  - intros env st Hk.
    now apply generateGeminiResponse_calls with (segment := "gemini-1.5-flash").
  - intros fields model contents H.
    rewrite upstream_arguments_unfold in H by discriminate. cbv zeta in H.
    simpl field in H.
    destruct (truthy _) in H.
    + destruct (Buffer_from _) as [buffer|e] in H; [|discriminate].
      simpl in H. inversion H; subst; clear H.
      split; [|split].
      * now intros ->.
      * intros ->. now eexists.
      * intros Hm block part payload [<-|[]] [<-|[<-|[]]] Hp;
          simpl in Hp; [discriminate|].
        inversion Hp; subst; simpl. now rewrite Hm.
    + inversion H; subst; clear H.
      split; [|split].
      * now intros ->.
      * intros ->. now eexists.
      * intros _ block part payload [<-|[]] [<-|[]] Hp. discriminate.
Qed.

(** ** Joining the text of the parts *)

Lemma result_bind_Ok {A} (r : result A) : result_bind r Ok = r.
Proof. now destruct r. Qed.

Lemma Array_join_empty_separator items :
  Array_join "" items = join_rest "" items.
Proof. destruct items; reflexivity. Qed.

(** An element that joins as the empty string can be left out. *)
Lemma join_rest_skip x before after :
  join_element x = Ok "" ->
  join_rest "" (before ++ x :: after) = join_rest "" (before ++ after).
Proof.
  intros Hx. induction before as [|y before IH]; simpl.
  - rewrite Hx. simpl. apply result_bind_Ok.
  - now rewrite IH.
Qed.

Lemma Array_map_from_app {B} (f : value -> nat -> result B) before after :
  forall i,
    Array_map_from i f (before ++ after)
    = let? ys := Array_map_from i f before in
      let? zs := Array_map_from (i + List.length before) f after in
      Ok (ys ++ zs)%list.
Proof.
  induction before as [|x before IH]; simpl; intros i.
  - rewrite Nat.add_0_r. now destruct (Array_map_from i f after).
  - destruct (f x i) as [y|e]; simpl; [|reflexivity].
    rewrite IH. rewrite Nat.add_succ_r. simpl.
    destruct (Array_map_from (S i) f before) as [ys|e]; simpl; [|reflexivity].
    now destruct (Array_map_from _ f after).
Qed.

Lemma Array_map_from_index_free {B} (g : value -> result B) items :
  forall i j,
    Array_map_from i (fun x _ => g x) items
    = Array_map_from j (fun x _ => g x) items.
Proof.
  induction items as [|x rest IH]; simpl; intros i j; [reflexivity|].
  now rewrite (IH (S i) (S j)).
Qed.

(** Leaving out a part that has no [text] changes neither the joined text
    nor the failure, if there is one. *)
Lemma parts_text_skip before after fields :
  lookup "text" fields = None ->
  parts_text (before ++ VObj fields :: after) = parts_text (before ++ after).
Proof.
  intros Hf. unfold parts_text, Array_map.
  rewrite !Array_map_from_app. simpl.
  rewrite Hf. simpl.
  destruct (Array_map_from 0 _ before) as [ys|e]; simpl; [|reflexivity].
  rewrite (Array_map_from_index_free (fun part => property part "text") after
             (S (List.length before)) (List.length before)).
  destruct (Array_map_from _ _ after) as [zs|e]; simpl; [|reflexivity].
  rewrite !Array_join_empty_separator.
  now apply join_rest_skip.
Qed.

Lemma is_part_text part :
  is_part part = true ->
  property part "text" = Ok (field part "text")
  /\ join_element (field part "text")
     = Ok (match part_text part with Some s => s | None => "" end).
Proof.
  destruct part as [| | | | | |fields]; try discriminate. simpl.
  destruct (lookup "text" fields) as [[| | | |s| |]|]; try discriminate;
    now split.
Qed.

(** On well-formed parts the joined text is the concatenation of the text
    parts. *)
Lemma parts_text_well_formed part_items :
  forallb is_part part_items = true ->
  parts_text part_items = Ok (concat_text_parts part_items).
Proof.
  intros H. unfold parts_text, Array_map.
  rewrite (Array_map_from_map (fun part => property part "text")
             (fun part => field part "text")).
  - simpl. rewrite Array_join_empty_separator.
    induction part_items as [|part rest IH]; simpl; [reflexivity|].
    simpl in H. apply andb_true_iff in H as [Hp Hr].
    destruct (is_part_text _ Hp) as [_ Hj]. rewrite Hj. simpl.
    rewrite (IH Hr). simpl. now destruct (part_text part).
  - intros part Hin.
    apply (is_part_text part).
    rewrite forallb_forall in H. now apply H.
Qed.

Lemma candidate_text_parts candidate part_items :
  candidate_parts candidate = Some part_items ->
  candidate_text candidate = parts_text part_items.
Proof.
  unfold candidate_parts, candidate_text. intros H.
  destruct candidate as [| | | | | |fields]; try discriminate.
  simpl in H |- *.
  destruct (lookup "content" fields) as [[| | | | | |inner]|];
    try discriminate.
  simpl in H |- *.
  destruct (lookup "parts" inner) as [[| | | | |items|]|]; try discriminate.
  now inversion H.
Qed.

Lemma candidate_text_well_formed candidate :
  is_candidate candidate = true ->
  candidate_text candidate = Ok (candidate_concat candidate).
Proof.
  unfold is_candidate, candidate_concat. intros H.
  apply andb_true_iff in H as [H _].
  destruct (candidate_parts candidate) as [part_items|] eqn:E;
    [|discriminate].
  rewrite (candidate_text_parts _ _ E).
  now apply parts_text_well_formed.
Qed.


(** ** The completion object *)

(** The choice built from a well-formed candidate. *)
Lemma choice_of_candidate candidate (i : nat) :
  is_candidate candidate = true ->
  exists finish,
    (let? content := candidate_text candidate in
     let? finishReason := property candidate "finishReason" in
     let? finish_reason := toLowerCase finishReason in
     Ok {| index := i;
           message := {| role := "assistant";
                         content := content;
                         refusal := VNull |};
           logprobs := VNull;
           finish_reason := finish_reason |})
    = Ok {| index := i;
            message := {| role := "assistant";
                          content := candidate_concat candidate;
                          refusal := VNull |};
            logprobs := VNull;
            finish_reason := finish |}.
Proof.
  intros H. rewrite (candidate_text_well_formed _ H). simpl.
  unfold is_candidate in H. apply andb_true_iff in H as [_ H].
  destruct candidate as [| | | | | |fields]; try discriminate.
  simpl in H |- *.
  destruct (lookup "finishReason" fields) as [[| | | |s| |]|];
    try discriminate.
  simpl. now eexists.
Qed.

Lemma choices_of_candidates candidates :
  forallb is_candidate candidates = true ->
  forall i,
  exists choices,
    Array_map_from i
      (fun candidate index =>
         let? content := candidate_text candidate in
         let? finishReason := property candidate "finishReason" in
         let? finish_reason := toLowerCase finishReason in
         Ok {| index := index;
               message := {| role := "assistant";
                             content := content;
                             refusal := VNull |};
               logprobs := VNull;
               finish_reason := finish_reason |})
      candidates
    = Ok choices
    /\ List.length choices = List.length candidates
    /\ forall k candidate,
         nth_error candidates k = Some candidate ->
         exists choice,
           nth_error choices k = Some choice
           /\ content (message choice) = candidate_concat candidate.
Proof.
  induction candidates as [|c rest IH]; simpl; intros H i.
  - exists []. split; [reflexivity|]. split; [reflexivity|].
    intros [|k] candidate Hk; discriminate.
  - apply andb_true_iff in H as [Hc Hrest].
    destruct (choice_of_candidate c i Hc) as [finish Ec].
    rewrite Ec. simpl.
    destruct (IH Hrest (S i)) as [choices [E [Hlen Hnth]]].
    rewrite E. simpl. eexists. split; [reflexivity|].
    split; [simpl; now f_equal|].
    intros [|k] candidate Hk; simpl in *.
    + inversion Hk; subst. eexists. split; reflexivity.
    + now apply Hnth.
Qed.

(** A well-formed provider answer is always reshaped, choice by choice. *)
Lemma transformedResponse_well_formed env model answer candidates :
  is_upstream_response answer = true ->
  response_candidates answer = Some candidates ->
  exists response,
    transformedResponse env model answer = Ok response
    /\ List.length (choices response) = List.length candidates
    /\ forall k candidate,
         nth_error candidates k = Some candidate ->
         exists choice,
           nth_error (choices response) k = Some choice
           /\ content (message choice) = candidate_concat candidate.
Proof.
  unfold is_upstream_response. intros H Hc. rewrite Hc in H.
  apply andb_true_iff in H as [Hall Hu].
  unfold response_candidates in Hc.
  destruct answer as [| | | | | |fields]; try discriminate.
  unfold transformedResponse. simpl in Hc, Hu |- *.
  destruct (lookup "candidates" fields) as [[| | | | |items|]|];
    try discriminate.
  inversion Hc; subst items. simpl.
  destruct (choices_of_candidates candidates Hall 0) as [chs [E [Hlen Hnth]]].
  unfold Array_map. rewrite E. simpl.
  destruct (lookup "usageMetadata" fields) as [[| | | | | |usage_fields]|];
    try discriminate.
  simpl. eexists. split; [reflexivity|]. simpl. now split.
Qed.

Lemma generateGeminiResponse_answered env data st model contents answer
    segment :
  GOOGLE_API_KEY env <> "" ->
  template_string model = Ok segment ->
  upstream_arguments data = Ok (model, contents) ->
  answers env (POST_generateContent model (GOOGLE_API_KEY env) contents)
    answer ->
  fst (generateGeminiResponse env data st)
  = transformedResponse env model answer.
Proof.
  intros Hk Hs Ha Hans. unfold generateGeminiResponse, bind at 1, lift at 1.
  rewrite Ha. cbn [fst snd]. unfold bind.
  now rewrite (getGeminiTextGeneration_answered _ _ _ _ _ _ Hk Hs Hans).
Qed.

(** A model that cannot be rendered into the URL fails the generation. *)
Lemma generateGeminiResponse_unrendered env data st model contents e :
  GOOGLE_API_KEY env <> "" ->
  template_string model = Throw e ->
  upstream_arguments data = Ok (model, contents) ->
  generateGeminiResponse env data st
  = (Throw (Error "Failed to generate text"),
     {| calls := calls st;
        console := console st ++ [("Error generating text:", e)] |}).
Proof.
  intros Hk Hs Ha. unfold generateGeminiResponse, bind at 1, lift at 1.
  rewrite Ha. cbn [fst snd]. unfold bind at 1, getGeminiTextGeneration.
  rewrite (key_set _ Hk). unfold try_catch, bind at 1, lift. now rewrite Hs.
Qed.

Lemma property_field v k x : property v k = Ok x -> x = field v k.
Proof.
  destruct v; simpl; intros H; inversion H; reflexivity.
Qed.

Lemma part_text_field part :
  part_text part
  = match field part "text" with VStr s => Some s | _ => None end.
Proof.
  destruct part as [| | | | | |fields]; try reflexivity. simpl.
  now destruct (lookup "text" fields) as [[| | | | | |]|].
Qed.

(** The values handed to [join] are the [text] fields of the parts. *)
Lemma texts_are_fields part_items :
  forall i texts,
    Array_map_from i (fun part (_ : nat) => property part "text") part_items
    = Ok texts ->
    texts = map (fun part => field part "text") part_items.
Proof.
  induction part_items as [|part rest IH]; simpl; intros i texts H.
  - now inversion H.
  - destruct (property part "text") as [x|e] eqn:Ep; simpl in H;
      [|discriminate].
    destruct (Array_map_from (S i) _ rest) as [xs|e] eqn:E; simpl in H;
      [|discriminate].
    inversion H; subst. f_equal; [now apply property_field | eauto].
Qed.

Lemma join_textual part_items :
  forallb textual part_items = true ->
  join_rest "" (map (fun part => field part "text") part_items)
  = Ok (concat_text_parts part_items).
Proof.
  induction part_items as [|part rest IH]; simpl; intros H; [reflexivity|].
  apply andb_true_iff in H as [Hp Hr]. rewrite (IH Hr).
  rewrite part_text_field. unfold textual in Hp.
  destruct (field part "text"); try discriminate; reflexivity.
Qed.

(** Whenever the text of the parts is produced and no part carries a [text]
    that is not a string, it is the concatenation of the text parts. *)
Lemma parts_text_textual part_items s :
  parts_text part_items = Ok s ->
  forallb textual part_items = true ->
  s = concat_text_parts part_items.
Proof.
  unfold parts_text, Array_map. intros H Ht.
  destruct (Array_map_from 0 _ part_items) as [texts|e] eqn:E;
    [|discriminate].
  simpl in H. apply texts_are_fields in E. subst texts.
  rewrite Array_join_empty_separator, (join_textual _ Ht) in H.
  now inversion H.
Qed.

Lemma candidate_text_Ok candidate s :
  candidate_text candidate = Ok s ->
  exists part_items,
    candidate_parts candidate = Some part_items
    /\ parts_text part_items = Ok s.
Proof.
  unfold candidate_text, candidate_parts. intros H.
  destruct (property candidate "content") as [inner|e] eqn:E1;
    [|discriminate].
  simpl in H.
  destruct (property inner "parts") as [ps|e] eqn:E2; [|discriminate].
  simpl in H.
  apply property_field in E1. apply property_field in E2. subst inner ps.
  destruct (field (field candidate "content") "parts"); try discriminate.
  simpl in H. eauto.
Qed.

(** A completion has the choices that [map] builds from the candidates. *)
Lemma transformedResponse_Ok env model answer response :
  transformedResponse env model answer = Ok response ->
  exists candidates,
    response_candidates answer = Some candidates
    /\ List.length (choices response) = List.length candidates
    /\ forall k candidate,
         nth_error candidates k = Some candidate ->
         exists choice,
           nth_error (choices response) k = Some choice
           /\ candidate_text candidate = Ok (content (message choice)).
Proof.
  unfold transformedResponse, response_candidates. intros H.
  destruct (property answer "candidates") as [cands|e] eqn:E1;
    [|discriminate].
  simpl in H. apply property_field in E1. subst cands.
  destruct (field answer "candidates"); try discriminate. simpl in H.
  destruct (Array_map _ items) as [chs|e] eqn:E; [|discriminate].
  simpl in H.
  destruct (property answer "usageMetadata") as [u|e]; [|discriminate].
  simpl in H.
  destruct (property u "promptTokenCount"); [|discriminate]. simpl in H.
  destruct (property u "candidatesTokenCount"); [|discriminate]. simpl in H.
  destruct (property u "totalTokenCount"); [|discriminate]. simpl in H.
  inversion H; subst; clear H. simpl.
  exists items. split; [reflexivity|]. unfold Array_map in E.
  split; [exact (Array_map_from_length _ _ _ _ E)|].
  intros k candidate Hk.
  destruct (Array_map_from_nth _ _ _ _ _ _ E Hk) as [choice [Hc Hf]].
  exists choice. split; [exact Hc|]. simpl in Hf.
  destruct (candidate_text candidate) as [s|e]; [|discriminate].
  simpl in Hf.
  destruct (property candidate "finishReason"); [|discriminate].
  simpl in Hf.
  destruct (toLowerCase _); [|discriminate]. simpl in Hf.
  now inversion Hf.
Qed.

(** C2: whatever the provider answers, a completion that is produced has
    one choice per candidate, in order, and the content of choice [i] is the
    concatenation, without separator, of the text parts of candidate [i];
    for an answer of the documented shape, to a call whose URL could be
    built, the completion is produced. *)
Theorem choices_follow_candidates env data st model contents answer :
  GOOGLE_API_KEY env <> "" ->
  upstream_arguments data = Ok (model, contents) ->
  answers env (POST_generateContent model (GOOGLE_API_KEY env) contents)
    answer ->
  (is_upstream_response answer = true ->
   (exists segment, template_string model = Ok segment) ->
   exists response, fst (generateGeminiResponse env data st) = Ok response)
  /\ forall response,
       fst (generateGeminiResponse env data st) = Ok response ->
       exists candidates,
         response_candidates answer = Some candidates
         /\ List.length (choices response) = List.length candidates
         /\ forall i candidate,
              nth_error candidates i = Some candidate ->
              exists choice part_items,
                nth_error (choices response) i = Some choice
                /\ candidate_parts candidate = Some part_items
                /\ (forallb textual part_items = true ->
                    content (message choice)
                    = concat_text_parts part_items).
Proof.
  intros Hk Ha Hans. split.
  - intros Hw [segment Hs].
    rewrite (generateGeminiResponse_answered _ _ _ _ _ _ _ Hk Hs Ha Hans).
    pose proof Hw as Hw'. unfold is_upstream_response in Hw'.
    destruct (response_candidates answer) as [candidates|] eqn:Ec;
      [|discriminate].
    destruct (transformedResponse_well_formed env model answer candidates
                Hw Ec)
      as [response [E _]].
    eauto.
  - intros response H.
    destruct (template_string model) as [segment|e] eqn:Hs;
      [|rewrite (generateGeminiResponse_unrendered _ _ _ _ _ _ Hk Hs Ha) in H;
        discriminate].
    rewrite (generateGeminiResponse_answered _ _ _ _ _ _ _ Hk Hs Ha Hans)
      in H.
    destruct (transformedResponse_Ok _ _ _ _ H) as [candidates [Hc [Hl Hn]]].
    exists candidates. split; [exact Hc|]. split; [exact Hl|].
    intros i candidate Hi.
    destruct (Hn _ _ Hi) as [choice [Hch Ht]].
    destruct (candidate_text_Ok _ _ Ht) as [part_items [Hp Hs']].
    exists choice, part_items. split; [exact Hch|]. split; [exact Hp|].
    intros Htx. exact (parts_text_textual _ _ Hs' Htx).
Qed.

(** A completion comes from reshaping some provider answer. *)
Lemma generateGeminiResponse_Ok env data st response :
  fst (generateGeminiResponse env data st) = Ok response ->
  exists model answer, transformedResponse env model answer = Ok response.
Proof.
  unfold generateGeminiResponse, bind at 1, lift at 1.
  destruct (upstream_arguments data) as [[model contents]|e];
    [|discriminate].
  cbn [fst snd]. unfold bind.
  destruct (getGeminiTextGeneration env model contents st)
    as [[answer|e] st']; [|discriminate].
  unfold lift. simpl. eauto.
Qed.

(** C8: every completion carries the fixed fingerprint, and every choice
    has [refusal] and [logprobs] equal to [null]. *)
Theorem fingerprint_and_nulls env data st response :
  fst (generateGeminiResponse env data st) = Ok response ->
  system_fingerprint response = "fp_3aa7262c27"
  /\ Forall (fun choice =>
               refusal (message choice) = VNull /\ logprobs choice = VNull)
       (choices response).
Proof.
  intros H. apply generateGeminiResponse_Ok in H as [model [answer H]].
  unfold transformedResponse in H.
  destruct (property answer "candidates") as [cands|e]; [|discriminate].
  simpl in H.
  destruct (as_array cands) as [items|e]; [|discriminate]. simpl in H.
  destruct (Array_map _ items) as [chs|e] eqn:E; [|discriminate].
  simpl in H.
  destruct (property answer "usageMetadata") as [u|e]; [|discriminate].
  simpl in H.
  destruct (property u "promptTokenCount"); [|discriminate]. simpl in H.
  destruct (property u "candidatesTokenCount"); [|discriminate]. simpl in H.
  destruct (property u "totalTokenCount"); [|discriminate]. simpl in H.
  inversion H; subst; clear H. simpl. split; [reflexivity|].
  unfold Array_map in E.
  eapply Array_map_from_Forall; [|exact E].
  intros x i y Hy. simpl in Hy.
  destruct (candidate_text x); [|discriminate]. simpl in Hy.
  destruct (property x "finishReason"); [|discriminate]. simpl in Hy.
  destruct (toLowerCase _); [|discriminate]. simpl in Hy.
  inversion Hy; subst. now split.
Qed.

(** ** Failures *)

Lemma getGeminiModels_keyless env st :
  GOOGLE_API_KEY env = "" ->
  getGeminiModels env st = (Throw ConfigurationError, st).
Proof.
  intros Hk. unfold getGeminiModels. now rewrite (key_unset _ Hk).
Qed.

Lemma generateGeminiResponse_keyless env data st :
  GOOGLE_API_KEY env = "" ->
  generateGeminiResponse env data st
  = (match upstream_arguments data with
     | Ok _ => Throw ConfigurationError
     | Throw e => Throw e
     end, st).
Proof.
  intros Hk. unfold generateGeminiResponse, bind at 1, lift at 1.
  destruct (upstream_arguments data) as [[model contents]|e];
    [|reflexivity].
  cbn [fst snd]. unfold bind, getGeminiTextGeneration.
  now rewrite (key_unset _ Hk).
Qed.

(** C4, as amended: without an API key both operations fail before any
    provider call is issued, and so do the two routes; the model list fails
    with the configuration error, and the completion fails with it whenever
    the request yields provider arguments, in particular for every valid
    request; otherwise it fails with the error raised while the request was
    built. *)
Theorem missing_key_fails_before_any_call env data st :
  GOOGLE_API_KEY env = "" ->
  getGeminiModels env st = (Throw ConfigurationError, st)
  /\ snd (generateGeminiResponse env data st) = st
  /\ (exists e, fst (generateGeminiResponse env data st) = Throw e)
  /\ (forall arguments,
         upstream_arguments data = Ok arguments ->
         fst (generateGeminiResponse env data st) = Throw ConfigurationError)
  /\ (valid_request data = true ->
      fst (generateGeminiResponse env data st) = Throw ConfigurationError)
  /\ (forall e,
         upstream_arguments data = Throw e ->
         fst (generateGeminiResponse env data st) = Throw e)
  /\ calls (snd (get_v1_models env st)) = calls st
  /\ calls (snd (post_v1_chat_completions env data st)) = calls st.
Proof.
  intros Hk.
  pose proof (generateGeminiResponse_keyless env data st Hk) as Hg.
  split; [now apply getGeminiModels_keyless|].
  split; [now rewrite Hg|].
  split; [rewrite Hg; simpl; destruct (upstream_arguments data); eauto|].
  split; [intros arguments Ha; now rewrite Hg, Ha|].
  split.
  { intros Hv. destruct (valid_request_arguments _ Hv) as [arguments Ha].
    now rewrite Hg, Ha. }
  split; [intros e Ha; now rewrite Hg, Ha|].
  split.
  - unfold get_v1_models, try_catch, bind at 1.
    now rewrite (getGeminiModels_keyless _ _ Hk).
  - unfold post_v1_chat_completions, try_catch, bind at 1.
    rewrite Hg. now destruct (upstream_arguments data).
Qed.

Lemma axios_unanswered env request st :
  unanswered env request ->
  fst (axios env request st) = Throw AxiosError.
Proof.
  unfold unanswered, axios.
  destruct (upstream env request) as [status answer|]; [|reflexivity].
  intros H.
  destruct ((200 <=? status)%Z && (status <? 300)%Z) eqn:E; [|reflexivity].
  apply andb_true_iff in E as [E1 E2].
  apply Z.leb_le in E1. apply Z.ltb_lt in E2. elim H. lia.
Qed.

(** C5: whatever makes an operation fail (missing key, transport error,
    non-2xx answer, or anything else), [GET /v1/models] answers 500 with the
    body [{message: "Failed to fetch Gemini models"}] and
    [POST /v1/chat/completions] answers 500 with the body
    [{message: "Failed to generate response"}]; a missing key and an
    unanswered provider call are such failures. *)
Theorem failures_become_fixed_500 env data st :
  (forall e,
      fst (getGeminiModels env st) = Throw e ->
      fst (get_v1_models env st)
      = Ok {| status := 500;
              body := MessageBody "Failed to fetch Gemini models" |})
  /\ (forall models st' e,
         getGeminiModels env st = (Ok models, st') ->
         modelNames models = Throw e ->
         fst (get_v1_models env st)
         = Ok {| status := 500;
                 body := MessageBody "Failed to fetch Gemini models" |})
  /\ (forall e,
         fst (generateGeminiResponse env data st) = Throw e ->
         fst (post_v1_chat_completions env data st)
         = Ok {| status := 500;
                 body := MessageBody "Failed to generate response" |})
  /\ (GOOGLE_API_KEY env = ""
      \/ unanswered env (GET_models (GOOGLE_API_KEY env)) ->
      exists e, fst (getGeminiModels env st) = Throw e)
  /\ (GOOGLE_API_KEY env = ""
      \/ (forall request, unanswered env request) ->
      exists e, fst (generateGeminiResponse env data st) = Throw e).
Proof.
  split; [|split; [|split; [|split]]].
  - intros e H. unfold get_v1_models, try_catch, bind at 1.
    destruct (getGeminiModels env st) as [[answer|e'] st']; [discriminate|].
    reflexivity.
  - intros models st' e Hm He. unfold get_v1_models, try_catch, bind at 1.
    rewrite Hm. unfold bind, lift. now rewrite He.
  - intros e H. unfold post_v1_chat_completions, try_catch, bind at 1.
    destruct (generateGeminiResponse env data st) as [[response|e'] st'];
      [discriminate|].
    reflexivity.
  - intros [Hk|Hu].
    + rewrite (getGeminiModels_keyless _ _ Hk). simpl. eauto.
    + unfold getGeminiModels.
      destruct (negb _); [simpl; eauto|].
      unfold try_catch, bind at 1.
      pose proof (axios_unanswered env _ st Hu) as Ha.
      destruct (axios env _ st) as [[answer|e'] st'];
        simpl in Ha; [discriminate|].
      simpl. eauto.
  - intros [Hk|Hu].
    + rewrite (generateGeminiResponse_keyless _ _ _ Hk). simpl.
      destruct (upstream_arguments data); eauto.
    + unfold generateGeminiResponse, bind at 1, lift at 1.
      destruct (upstream_arguments data) as [[model contents]|e];
        [|simpl; eauto].
      cbn [fst snd]. unfold bind at 1, getGeminiTextGeneration.
      destruct (negb _); [simpl; eauto|].
      unfold try_catch, bind at 1, lift at 1.
      destruct (template_string model) as [segment|e]; [|simpl; eauto].
      unfold bind at 1.
      pose proof (axios_unanswered env
                    (POST_generateContent model (GOOGLE_API_KEY env) contents)
                    st (Hu _)) as Ha.
      destruct (axios env _ st) as [[answer|e'] st'];
        simpl in Ha; [discriminate|].
      simpl. eauto.
Qed.

End Properties.

(** ** The statements at concrete runs *)

Lemma upstream_content_parts_witness :
  valid_request bytes_request = true
  /\ exists rest,
       @upstream_arguments plain_runtime bytes_request
       = Ok (VStr "gemini-pro",
             [ {| parts := text_part (VStr "Describe") :: rest |} ])
       /\ (forall env st,
              GOOGLE_API_KEY env <> "" ->
              calls (snd (@generateGeminiResponse plain_runtime env
                            bytes_request st))
              = (calls st
                 ++ [POST_generateContent (VStr "gemini-pro")
                       (GOOGLE_API_KEY env)
                       [ {| parts := text_part (VStr "Describe") :: rest |} ]])
                %list)
       /\ (field bytes_request "inlineData" = VUndefined
           \/ field bytes_request "inlineData" = VStr "" ->
           rest = [])
       /\ (field bytes_request "inlineData" <> VUndefined ->
           field bytes_request "inlineData" <> VStr "" ->
           rest = [ inline_part (VStr "image/png") "TWFu" ]).
Proof.
  split; [reflexivity|].
  exact (@upstream_content_parts plain_runtime bytes_request eq_refl).
Defined.

(** C1, as stated, fails: an [inlineData] that is present and holds the
    empty string is not sent, so the block has one part, not two. *)
Lemma empty_inline_data_single_part :
  valid_request empty_inline_request = true
  /\ field empty_inline_request "inlineData" = VStr ""
  /\ calls (snd (@generateGeminiResponse plain_runtime sample_env
                   empty_inline_request initial_state))
     = [POST_generateContent (VStr "gemini-1.5-flash") "secret"
          [ {| parts := [ text_part (VStr "Hello") ] |} ]]
  /\ ~ (exists model first second,
          @upstream_arguments plain_runtime empty_inline_request
          = Ok (model, [ {| parts := [first; second] |} ])).
Proof.
  repeat split. intros [model [first [second H]]]. discriminate H.
Qed.

Lemma choices_follow_candidates_witness :
  GOOGLE_API_KEY sample_env <> ""
  /\ @upstream_arguments plain_runtime hello_request
     = Ok (VStr "gemini-1.5-flash",
           [ {| parts := [ text_part (VStr "Hello") ] |} ])
  /\ answers sample_env
       (POST_generateContent (VStr "gemini-1.5-flash") "secret"
          [ {| parts := [ text_part (VStr "Hello") ] |} ])
       sample_answer
  /\ is_upstream_response sample_answer = true
  /\ (exists segment,
        @template_string plain_runtime (VStr "gemini-1.5-flash")
        = Ok segment)
  /\ exists response,
       fst (@generateGeminiResponse plain_runtime sample_env hello_request
              initial_state)
       = Ok response
       /\ exists candidates,
            response_candidates sample_answer = Some candidates
            /\ List.length (choices response) = List.length candidates
            /\ forall i candidate,
                 nth_error candidates i = Some candidate ->
                 exists choice part_items,
                   nth_error (choices response) i = Some choice
                   /\ candidate_parts candidate = Some part_items
                   /\ (forallb textual part_items = true ->
                       content (message choice)
                       = concat_text_parts part_items).
Proof.
  assert (Hk : GOOGLE_API_KEY sample_env <> "") by discriminate.
  assert (Ha : answers sample_env
                 (POST_generateContent (VStr "gemini-1.5-flash") "secret"
                    [ {| parts := [ text_part (VStr "Hello") ] |} ])
                 sample_answer)
    by (exists 200%Z; split; [reflexivity | lia]).
  assert (Hs : exists segment,
                 @template_string plain_runtime (VStr "gemini-1.5-flash")
                 = Ok segment)
    by (exists "gemini-1.5-flash"; reflexivity).
  repeat (split; [first [exact Hk | exact Ha | exact Hs | reflexivity]|]).
  destruct (@choices_follow_candidates plain_runtime sample_env hello_request
              initial_state _ _ sample_answer Hk eq_refl Ha)
    as [Hproduced Hshape].
  destruct (Hproduced eq_refl Hs) as [response Hr].
  exists response. split; [exact Hr | exact (Hshape response Hr)].
Defined.

Lemma models_prefix_removed_witness :
  GOOGLE_API_KEY sample_env <> ""
  /\ answers sample_env (GET_models "secret") sample_models
  /\ listed_names sample_models
     = Some ["models/gemini-1.5-flash"; "models/gemini-pro"]
  /\ exists out,
       fst (get_v1_models sample_env initial_state)
       = Ok (res_json (ModelNamesBody out))
       /\ List.length out = 2
       /\ forall k name,
            nth_error ["models/gemini-1.5-flash"; "models/gemini-pro"] k
            = Some name ->
            exists o,
              nth_error out k = Some o
              /\ (forall rest, name = "models/" ++ rest -> o = rest)
              /\ (occurs "models/" name = false -> o = name).
Proof.
  assert (Hk : GOOGLE_API_KEY sample_env <> "") by discriminate.
  assert (Ha : answers sample_env (GET_models "secret") sample_models)
    by (exists 200%Z; split; [reflexivity | lia]).
  repeat (split; [first [exact Hk | exact Ha | reflexivity]|]).
  exact (models_prefix_removed sample_env initial_state sample_models
           ["models/gemini-1.5-flash"; "models/gemini-pro"] Hk Ha eq_refl).
Defined.

(** C3, as stated, fails: an identifier that does not begin with ["models/"]
    but contains it further on loses that inner segment. *)
Lemma models_inner_segment_removed :
  listed_names nested_models = Some ["publishers/google/models/gemini-pro"]
  /\ prefix "models/" "publishers/google/models/gemini-pro" = false
  /\ fst (get_v1_models nested_env initial_state)
     = Ok (res_json (ModelNamesBody ["publishers/google/gemini-pro"]))
  /\ ["publishers/google/gemini-pro"]
     <> map without_models_prefix ["publishers/google/models/gemini-pro"].
Proof.
  repeat split; try reflexivity. discriminate.
Qed.

Lemma missing_key_fails_before_any_call_witness :
  GOOGLE_API_KEY keyless_env = ""
  /\ getGeminiModels keyless_env initial_state
     = (Throw ConfigurationError, initial_state)
  /\ snd (@generateGeminiResponse plain_runtime keyless_env bytes_request
            initial_state)
     = initial_state
  /\ fst (@generateGeminiResponse plain_runtime keyless_env bytes_request
            initial_state)
     = Throw ConfigurationError
  /\ calls (snd (get_v1_models keyless_env initial_state)) = []
  /\ calls (snd (@post_v1_chat_completions plain_runtime keyless_env
                   bytes_request initial_state))
     = [].
Proof.
  destruct (@missing_key_fails_before_any_call plain_runtime keyless_env
              bytes_request initial_state eq_refl)
    as (H1 & H2 & _ & _ & H5 & _ & H7 & H8).
  split; [reflexivity|].
  split; [exact H1|]. split; [exact H2|]. split; [exact (H5 eq_refl)|].
  split; [exact H7 | exact H8].
Defined.

(** C4, as stated, fails: without a key, a request whose [inlineData] is a
    number fails with the [TypeError] of [Buffer.from], raised while the
    request is built, and not with the configuration error. *)
Lemma missing_key_type_error_first :
  GOOGLE_API_KEY keyless_env = ""
  /\ fst (@generateGeminiResponse plain_runtime keyless_env
            number_inline_request initial_state)
     = Throw TypeError
  /\ fst (@generateGeminiResponse plain_runtime keyless_env
            number_inline_request initial_state)
     <> Throw ConfigurationError.
Proof.
  repeat split. discriminate.
Qed.

Lemma failures_become_fixed_500_witness :
  fst (getGeminiModels failing_env initial_state)
  = Throw (Error "Failed to fetch Gemini models")
  /\ fst (get_v1_models failing_env initial_state)
     = Ok {| status := 500;
             body := MessageBody "Failed to fetch Gemini models" |}
  /\ fst (@generateGeminiResponse plain_runtime keyless_env hello_request
            initial_state)
     = Throw ConfigurationError
  /\ fst (@post_v1_chat_completions plain_runtime keyless_env hello_request
            initial_state)
     = Ok {| status := 500;
             body := MessageBody "Failed to generate response" |}.
Proof.
  split; [reflexivity|]. split.
  - exact (proj1 (@failures_become_fixed_500 plain_runtime failing_env
                    hello_request initial_state) _ eq_refl).
  - split; [reflexivity|].
    exact (proj1 (proj2 (proj2 (@failures_become_fixed_500 plain_runtime
                                  keyless_env hello_request initial_state)))
             _ eq_refl).
Defined.

Lemma defaults_applied_witness :
  GOOGLE_API_KEY sample_env <> ""
  /\ calls (snd (@generateGeminiResponse plain_runtime sample_env
                   hello_request initial_state))
     = [POST_generateContent (VStr "gemini-1.5-flash") "secret"
          [ {| parts := [ {| text := Some (VStr "Hello");
                             inline_data := None |} ] |} ]]
  /\ lookup "prompt" [("inlineData", VStr "Man")] = None
  /\ exists model contents,
       @upstream_arguments plain_runtime (VObj [("inlineData", VStr "Man")])
       = Ok (model, contents)
       /\ exists rest,
            contents
            = [ {| parts :=
                     {| text := Some (VStr "No prompt provided");
                        inline_data := None |} :: rest |} ].
Proof.
  assert (Hk : GOOGLE_API_KEY sample_env <> "") by discriminate.
  split; [exact Hk|]. split.
  - exact (proj1 (@defaults_applied plain_runtime) sample_env initial_state
             Hk).
  - split; [reflexivity|].
    eexists. eexists. split; [reflexivity|].
    exact (proj1 (proj2 (proj2 (@defaults_applied plain_runtime)
                           [("inlineData", VStr "Man")] _ _ eq_refl))
             eq_refl).
Defined.

Lemma fingerprint_and_nulls_witness :
  exists response,
    fst (@generateGeminiResponse plain_runtime sample_env hello_request
           initial_state)
    = Ok response
    /\ system_fingerprint response = "fp_3aa7262c27"
    /\ Forall (fun choice =>
                 refusal (message choice) = VNull
                 /\ logprobs choice = VNull)
         (choices response).
Proof.
  eexists. split; [reflexivity|].
  exact (@fingerprint_and_nulls plain_runtime sample_env hello_request
           initial_state _ eq_refl).
Defined.

Lemma falsy_fields_default_witness :
  lookup "inlineData" [("prompt", VStr "Hello"); ("inlineData", VStr "")]
  = Some (VStr "")
  /\ truthy (VStr "") = false
  /\ @upstream_arguments plain_runtime empty_inline_request
     = @upstream_arguments plain_runtime hello_request
  /\ forall env st,
       @post_v1_chat_completions plain_runtime env empty_inline_request st
       = @post_v1_chat_completions plain_runtime env hello_request st.
Proof.
  split; [reflexivity|]. split; [reflexivity|].
  exact (proj1 (@falsy_fields_default plain_runtime
                  [("prompt", VStr "Hello"); ("inlineData", VStr "")])
           "inlineData" (VStr "")
           (or_intror (or_intror (or_intror (or_introl eq_refl))))
           eq_refl eq_refl).
Defined.

(** C9, as stated, fails: an [inlineData] that is the empty array, an empty
    byte sequence, is truthy and adds a second part. *)
Lemma empty_array_adds_part :
  given_bytes (field empty_array_request "inlineData") = []
  /\ calls (snd (@generateGeminiResponse plain_runtime sample_env
                   empty_array_request initial_state))
     = [POST_generateContent (VStr "gemini-1.5-flash") "secret"
          [ {| parts := [ text_part (VStr "Hello");
                          inline_part (VStr "text/plain") "" ] |} ]]
  /\ ~ (exists model first,
          @upstream_arguments plain_runtime empty_array_request
          = Ok (model, [ {| parts := [first] |} ])).
Proof.
  repeat split. intros [model [first H]]. discriminate H.
Qed.


(** * Further properties of the routes and of the reshaping *)

Section Further.
Context {runtime : Runtime}.

(** ** What one run does to the state *)

Lemma axios_run env request st :
  axios env request st
  = match resolved env request with
    | Some data => (Ok data, issued st request)
    | None => (Throw AxiosError, issued st request)
    end.
Proof.
  unfold axios, resolved, issued.
  destruct (upstream env request) as [status data|]; [|reflexivity].
  now destruct ((200 <=? status)%Z && (status <? 300)%Z).
Qed.

Lemma key_eqb env :
  negb (truthy (VStr (GOOGLE_API_KEY env))) = (GOOGLE_API_KEY env =? "").
Proof. simpl. apply negb_involutive. Qed.

Lemma getGeminiModels_run env st :
  getGeminiModels env st
  = if GOOGLE_API_KEY env =? ""
    then (Throw ConfigurationError, st)
    else
      let request := GET_models (GOOGLE_API_KEY env) in
      match resolved env request with
      | Some data => (Ok data, issued st request)
      | None =>
          (Throw (Error "Failed to fetch Gemini models"),
           logged (issued st request) "Error fetching models:" AxiosError)
      end.
Proof.
  unfold getGeminiModels. rewrite key_eqb.
  destruct (GOOGLE_API_KEY env =? ""); [reflexivity|].
  unfold try_catch, bind at 1. rewrite axios_run. cbv zeta.
  now destruct (resolved env _).
Qed.

Lemma getGeminiTextGeneration_run env model contents st :
  getGeminiTextGeneration env model contents st
  = if GOOGLE_API_KEY env =? ""
    then (Throw ConfigurationError, st)
    else
      let request :=
        POST_generateContent model (GOOGLE_API_KEY env) contents in
      match template_string model with
      | Throw e =>
          (Throw (Error "Failed to generate text"),
           logged st "Error generating text:" e)
      | Ok _ =>
          match resolved env request with
          | Some data => (Ok data, issued st request)
          | None =>
              (Throw (Error "Failed to generate text"),
               logged (issued st request) "Error generating text:"
                 AxiosError)
          end
      end.
Proof.
  unfold getGeminiTextGeneration. rewrite key_eqb.
  destruct (GOOGLE_API_KEY env =? ""); [reflexivity|].
  unfold try_catch, bind at 1, lift at 1. cbv zeta.
  destruct (template_string model) as [segment|e]; [|reflexivity].
  unfold bind at 1. rewrite axios_run.
  now destruct (resolved env _).
Qed.

Lemma generateGeminiResponse_run env data st :
  generateGeminiResponse env data st
  = match upstream_arguments data with
    | Throw e => (Throw e, st)
    | Ok (model, contents) =>
        match getGeminiTextGeneration env model contents st with
        | (Ok answer, st') => (transformedResponse env model answer, st')
        | (Throw e, st') => (Throw e, st')
        end
    end.
Proof.
  unfold generateGeminiResponse, bind at 1, lift at 1.
  destruct (upstream_arguments data) as [[model contents]|e]; [|reflexivity].
  cbn [fst snd]. unfold bind, lift.
  now destruct (getGeminiTextGeneration env model contents st) as [[a|e] st'].
Qed.

Lemma get_v1_models_run env st :
  get_v1_models env st
  = match getGeminiModels env st with
    | (Ok models, st') =>
        match modelNames models with
        | Ok names => (Ok (res_json (ModelNamesBody names)), st')
        | Throw e =>
            (Ok models_500, logged st' "Error fetching models:" e)
        end
    | (Throw e, st') =>
        (Ok models_500, logged st' "Error fetching models:" e)
    end.
Proof.
  unfold get_v1_models, try_catch, bind at 1.
  destruct (getGeminiModels env st) as [[models|e] st']; [|reflexivity].
  unfold bind at 1, lift. now destruct (modelNames models).
Qed.

Lemma post_v1_chat_completions_run env data st :
  post_v1_chat_completions env data st
  = match generateGeminiResponse env data st with
    | (Ok response, st') => (Ok (res_json (CompletionBody response)), st')
    | (Throw e, st') =>
        (Ok completions_500, logged st' "Error generating response:" e)
    end.
Proof.
  unfold post_v1_chat_completions, try_catch, bind at 1.
  now destruct (generateGeminiResponse env data st) as [[response|e] st'].
Qed.

(** X1: a request issues at most one provider call and never retries: the
    model list route issues exactly one [GET] when a key is set and none
    otherwise; the completion route issues exactly one [POST], carrying the
    key, the resolved model and the built contents, when a key is set, the
    request could be built and the model could be rendered into the URL,
    and none otherwise.  Earlier calls are kept, whatever the provider
    answers. *)
Theorem one_call_per_request env data st :
  calls (snd (get_v1_models env st))
  = (if GOOGLE_API_KEY env =? ""
     then calls st
     else calls st ++ [GET_models (GOOGLE_API_KEY env)])%list
  /\ calls (snd (post_v1_chat_completions env data st))
     = match upstream_arguments data with
       | Ok (model, contents) =>
           if GOOGLE_API_KEY env =? ""
           then calls st
           else
             match template_string model with
             | Ok _ =>
                 (calls st
                  ++ [POST_generateContent model (GOOGLE_API_KEY env)
                        contents])%list
             | Throw _ => calls st
             end
       | Throw _ => calls st
       end.
Proof.
  split.
  - rewrite get_v1_models_run, getGeminiModels_run.
    destruct (GOOGLE_API_KEY env =? ""); [reflexivity|]. cbv zeta.
    destruct (resolved env _) as [models|]; [|reflexivity].
    now destruct (modelNames models).
  - rewrite post_v1_chat_completions_run, generateGeminiResponse_run.
    destruct (upstream_arguments data) as [[model contents]|e];
      [|reflexivity].
    rewrite getGeminiTextGeneration_run.
    destruct (GOOGLE_API_KEY env =? ""); [reflexivity|]. cbv zeta.
    destruct (template_string model) as [segment|e]; [|reflexivity].
    destruct (resolved env _) as [answer|]; [|reflexivity].
    now destruct (transformedResponse env model answer).
Qed.

(** X2: the routes never throw: [GET /v1/models] answers either 200 with the
    list of names or the fixed 500, and [POST /v1/chat/completions] answers
    either 200 with the completion that [generateGeminiResponse] returned or
    the fixed 500. *)
Theorem routes_always_respond env data st :
  ((exists names,
       fst (get_v1_models env st) = Ok (res_json (ModelNamesBody names)))
   \/ fst (get_v1_models env st) = Ok models_500)
  /\ ((exists response,
          fst (generateGeminiResponse env data st) = Ok response
          /\ fst (post_v1_chat_completions env data st)
             = Ok (res_json (CompletionBody response)))
      \/ ((exists e, fst (generateGeminiResponse env data st) = Throw e)
          /\ fst (post_v1_chat_completions env data st)
             = Ok completions_500)).
Proof.
  split.
  - rewrite get_v1_models_run.
    destruct (getGeminiModels env st) as [[models|e] st']; [|now right].
    destruct (modelNames models) as [names|e]; [left; now exists names|].
    now right.
  - rewrite post_v1_chat_completions_run.
    destruct (generateGeminiResponse env data st) as [[response|e] st'].
    + left. now exists response.
    + right. split; [now exists e | reflexivity].
Qed.

Lemma unanswered_resolved env request :
  unanswered env request -> resolved env request = None.
Proof.
  unfold unanswered, resolved.
  destruct (upstream env request) as [status data|]; [|reflexivity].
  intros H.
  destruct ((200 <=? status)%Z && (status <? 300)%Z) eqn:E; [|reflexivity].
  apply andb_true_iff in E as [E1 E2].
  apply Z.leb_le in E1. apply Z.ltb_lt in E2. elim H. lia.
Qed.

(** X3: when a key is set and the provider does not answer with a 2xx
    status, the call was issued once, the transport error is written to the
    console, and the caller gets a new error with a fixed message
    (["Failed to fetch Gemini models"], ["Failed to generate text"]) in
    place of the transport error; when the model cannot be rendered into
    the URL, no call is issued and the error of the rendering is written
    and replaced in the same way. *)
Theorem provider_failure_wrapped env st :
  GOOGLE_API_KEY env <> "" ->
  (unanswered env (GET_models (GOOGLE_API_KEY env)) ->
   getGeminiModels env st
   = (Throw (Error "Failed to fetch Gemini models"),
      logged (issued st (GET_models (GOOGLE_API_KEY env)))
        "Error fetching models:" AxiosError))
  /\ (forall model contents segment,
         template_string model = Ok segment ->
         unanswered env
           (POST_generateContent model (GOOGLE_API_KEY env) contents) ->
         getGeminiTextGeneration env model contents st
         = (Throw (Error "Failed to generate text"),
            logged
              (issued st
                 (POST_generateContent model (GOOGLE_API_KEY env) contents))
              "Error generating text:" AxiosError))
  /\ (forall model contents e,
         template_string model = Throw e ->
         getGeminiTextGeneration env model contents st
         = (Throw (Error "Failed to generate text"),
            logged st "Error generating text:" e)).
Proof.
  intros Hk. apply String.eqb_neq in Hk. split; [|split].
  - intros Hu. rewrite getGeminiModels_run, Hk. cbv zeta.
    now rewrite (unanswered_resolved _ _ Hu).
  - intros model contents segment Hs Hu.
    rewrite getGeminiTextGeneration_run, Hk. cbv zeta. rewrite Hs.
    now rewrite (unanswered_resolved _ _ Hu).
  - intros model contents e Hs.
    rewrite getGeminiTextGeneration_run, Hk. cbv zeta. now rewrite Hs.
Qed.

Lemma getGeminiTextGeneration_console env model contents st :
  match getGeminiTextGeneration env model contents st with
  | (Ok _, st') => console st' = console st
  | (Throw _, st') =>
      console st' = console st
      \/ console st'
         = (console st ++ [("Error generating text:", AxiosError)])%list
      \/ exists e,
           template_string model = Throw e
           /\ console st'
              = (console st ++ [("Error generating text:", e)])%list
  end.
Proof.
  rewrite getGeminiTextGeneration_run.
  destruct (GOOGLE_API_KEY env =? ""); [now left|]. cbv zeta.
  destruct (template_string model) as [segment|e].
  - destruct (resolved env _); [reflexivity | right; now left].
  - right. right. now exists e.
Qed.

(** X4: a request that is answered with 200 writes nothing to the console;
    a completion request that fails writes the error that
    [generateGeminiResponse] raised, under the label
    ["Error generating response:"], as the last line, preceded at most by
    one line under ["Error generating text:"], which holds the transport
    error or, when the model could not be rendered into the URL, the error
    of the rendering. *)
Theorem console_records_failures env data st :
  (forall names,
      fst (get_v1_models env st) = Ok (res_json (ModelNamesBody names)) ->
      console (snd (get_v1_models env st)) = console st)
  /\ (forall response,
         fst (generateGeminiResponse env data st) = Ok response ->
         console (snd (post_v1_chat_completions env data st)) = console st)
  /\ (forall e,
         fst (generateGeminiResponse env data st) = Throw e ->
         exists earlier,
           console (snd (post_v1_chat_completions env data st))
           = (console st ++ earlier
              ++ [("Error generating response:", e)])%list
           /\ (earlier = []
               \/ earlier = [("Error generating text:", AxiosError)]
               \/ exists model contents e',
                    upstream_arguments data = Ok (model, contents)
                    /\ template_string model = Throw e'
                    /\ earlier = [("Error generating text:", e')])).
Proof.
  split; [|split].
  - intros names. rewrite get_v1_models_run, getGeminiModels_run.
    destruct (GOOGLE_API_KEY env =? ""); [discriminate|]. cbv zeta.
    destruct (resolved env _) as [models|]; [|discriminate].
    destruct (modelNames models); [reflexivity | discriminate].
  - intros response.
    rewrite post_v1_chat_completions_run, generateGeminiResponse_run.
    destruct (upstream_arguments data) as [[model contents]|e];
      [|discriminate].
    pose proof (getGeminiTextGeneration_console env model contents st) as Hc.
    destruct (getGeminiTextGeneration env model contents st)
      as [[answer|e] st']; [|discriminate].
    destruct (transformedResponse env model answer); [|discriminate].
    intros _. exact Hc.
  - intros e.
    rewrite post_v1_chat_completions_run, generateGeminiResponse_run.
    destruct (upstream_arguments data) as [[model contents]|e0].
    + pose proof (getGeminiTextGeneration_console env model contents st)
        as Hc.
      destruct (getGeminiTextGeneration env model contents st)
        as [[answer|e1] st'].
      * destruct (transformedResponse env model answer) as [r|e2];
          [discriminate|].
        simpl. intros H. inversion H; subst. exists []. split; [|now left].
        now rewrite Hc.
      * simpl. intros H. inversion H; subst.
        destruct Hc as [Hc|[Hc|[e' [Hs Hc]]]]; rewrite Hc.
        -- exists []. split; [reflexivity | now left].
        -- exists [("Error generating text:", AxiosError)].
           split; [now rewrite <- app_assoc | right; now left].
        -- exists [("Error generating text:", e')].
           split; [now rewrite <- app_assoc|].
           right. right. now exists model, contents, e'.
    + simpl. intros H. inversion H; subst. exists []. split; [|now left].
      reflexivity.
Qed.

(** ** The fields of a completion *)

Lemma property_Ok_nullish v k x : property v k = Ok x -> nullish v = false.
Proof. destruct v; simpl; intros H; now inversion H. Qed.

Lemma property_not_nullish v k :
  nullish v = false -> property v k = Ok (field v k).
Proof. destruct v; simpl; intros H; try discriminate; reflexivity. Qed.

Lemma property_nullish v k : nullish v = true -> property v k = Throw TypeError.
Proof. destruct v; simpl; intros H; try discriminate; reflexivity. Qed.

(** A completion that is produced comes from the body of a 2xx answer to
    the one call issued for the request. *)
Lemma generateGeminiResponse_produced env data st response :
  fst (generateGeminiResponse env data st) = Ok response ->
  exists model contents answer,
    upstream_arguments data = Ok (model, contents)
    /\ GOOGLE_API_KEY env <> ""
    /\ resolved env
         (POST_generateContent model (GOOGLE_API_KEY env) contents)
       = Some answer
    /\ transformedResponse env model answer = Ok response.
Proof.
  rewrite generateGeminiResponse_run.
  destruct (upstream_arguments data) as [[model contents]|e];
    [|discriminate].
  rewrite getGeminiTextGeneration_run.
  destruct (GOOGLE_API_KEY env =? "") eqn:Ek; [discriminate|]. cbv zeta.
  destruct (template_string model) as [segment|e0]; [|discriminate].
  destruct (resolved env _) as [answer|] eqn:Er; [|discriminate].
  simpl. intros H. exists model, contents, answer.
  apply String.eqb_neq in Ek. auto.
Qed.

(** The model of a completion that is produced could be rendered. *)
Lemma generateGeminiResponse_rendered env data st response sent contents :
  fst (generateGeminiResponse env data st) = Ok response ->
  upstream_arguments data = Ok (sent, contents) ->
  exists segment, template_string sent = Ok segment.
Proof.
  rewrite generateGeminiResponse_run. intros H Ha. rewrite Ha in H.
  rewrite getGeminiTextGeneration_run in H.
  destruct (GOOGLE_API_KEY env =? ""); [discriminate|]. cbv zeta in H.
  destruct (template_string sent) as [segment|e]; [eauto | discriminate].
Qed.

(** Every field of the object literal, read back from a completion. *)
Lemma transformedResponse_fields env sent answer response :
  transformedResponse env sent answer = Ok response ->
  exists candidates,
    response_candidates answer = Some candidates
    /\ Array_map
         (fun candidate index =>
            let? content := candidate_text candidate in
            let? finishReason := property candidate "finishReason" in
            let? finish_reason := toLowerCase finishReason in
            Ok {| index := index;
                  message := {| role := "assistant";
                                content := content;
                                refusal := VNull |};
                  logprobs := VNull;
                  finish_reason := finish_reason |})
         candidates
       = Ok (choices response)
    /\ nullish (field answer "usageMetadata") = false
    /\ id response = "chatcmpl-" ++ generateUniqueId env
    /\ object response = "chat.completion"
    /\ created response = (Date_now env / 1000)%Z
    /\ model response = sent
    /\ usage response
       = {| prompt_tokens :=
              field (field answer "usageMetadata") "promptTokenCount";
            completion_tokens :=
              field (field answer "usageMetadata") "candidatesTokenCount";
            total_tokens :=
              field (field answer "usageMetadata") "totalTokenCount" |}.
Proof.
  unfold transformedResponse, response_candidates. intros H.
  destruct (property answer "candidates") as [cands|e] eqn:E1;
    [|discriminate].
  simpl in H. apply property_field in E1. subst cands.
  destruct (field answer "candidates"); try discriminate. simpl in H.
  destruct (Array_map _ items) as [chs|e] eqn:E; [|discriminate].
  simpl in H.
  destruct (property answer "usageMetadata") as [u|e] eqn:Eu; [|discriminate].
  simpl in H. apply property_field in Eu. subst u.
  destruct (property _ "promptTokenCount") as [p|e] eqn:Ep; [|discriminate].
  simpl in H.
  destruct (property _ "candidatesTokenCount") as [c|e] eqn:Ec;
    [|discriminate].
  simpl in H.
  destruct (property _ "totalTokenCount") as [t|e] eqn:Et; [|discriminate].
  simpl in H.
  pose proof (property_Ok_nullish _ _ _ Ep) as Hn.
  apply property_field in Ep, Ec, Et. subst p c t.
  inversion H; subst; clear H. simpl.
  exists items. repeat split; auto.
Qed.

(** X5: in a completion, the choice at position [i] has [index] equal to
    [i] and the role ["assistant"], and its [finish_reason] is the
    lower-cased [finishReason] of candidate [i], which is a string. *)
Theorem choice_index_and_finish_reason env data st response :
  fst (generateGeminiResponse env data st) = Ok response ->
  exists sent contents answer candidates,
    upstream_arguments data = Ok (sent, contents)
    /\ resolved env
         (POST_generateContent sent (GOOGLE_API_KEY env) contents)
       = Some answer
    /\ response_candidates answer = Some candidates
    /\ forall i choice,
         nth_error (choices response) i = Some choice ->
         index choice = i
         /\ role (message choice) = "assistant"
         /\ exists candidate s,
              nth_error candidates i = Some candidate
              /\ field candidate "finishReason" = VStr s
              /\ finish_reason choice = String_toLowerCase s.
Proof.
  intros H.
  destruct (generateGeminiResponse_produced _ _ _ _ H)
    as (sent & contents & answer & Ha & _ & Hr & Ht).
  destruct (transformedResponse_fields _ _ _ _ Ht)
    as (candidates & Hc & Hm & _).
  exists sent, contents, answer, candidates.
  repeat (split; [assumption|]).
  intros i choice Hi. unfold Array_map in Hm.
  pose proof (Array_map_from_length _ _ _ _ Hm) as Hlen.
  assert (Hlt : (i < List.length candidates)%nat).
  { rewrite <- Hlen. apply nth_error_Some. now rewrite Hi. }
  destruct (nth_error candidates i) as [candidate|] eqn:En;
    [|apply nth_error_None in En; lia].
  destruct (Array_map_from_nth _ _ _ _ _ _ Hm En) as [choice' [Hc' Hf]].
  rewrite Hi in Hc'. inversion Hc'; subst choice'. simpl in Hf.
  destruct (candidate_text candidate) as [text_|e]; [|discriminate].
  simpl in Hf.
  destruct (property candidate "finishReason") as [fr|e] eqn:Ef;
    [|discriminate].
  simpl in Hf. apply property_field in Ef. subst fr.
  destruct (field candidate "finishReason") as [| | | |s| |] eqn:Es;
    try discriminate.
  simpl in Hf. inversion Hf; subst choice. simpl.
  repeat split. now exists candidate, s.
Qed.

(** X6: the token counts of a completion are the three fields of the
    answer's [usageMetadata], copied as they are ([undefined] when a field
    is missing); a completion is produced only if [usageMetadata] is
    neither [undefined] nor [null]. *)
Theorem usage_copied env data st response :
  fst (generateGeminiResponse env data st) = Ok response ->
  exists sent contents answer,
    upstream_arguments data = Ok (sent, contents)
    /\ resolved env
         (POST_generateContent sent (GOOGLE_API_KEY env) contents)
       = Some answer
    /\ nullish (field answer "usageMetadata") = false
    /\ prompt_tokens (usage response)
       = field (field answer "usageMetadata") "promptTokenCount"
    /\ completion_tokens (usage response)
       = field (field answer "usageMetadata") "candidatesTokenCount"
    /\ total_tokens (usage response)
       = field (field answer "usageMetadata") "totalTokenCount".
Proof.
  intros H.
  destruct (generateGeminiResponse_produced _ _ _ _ H)
    as (sent & contents & answer & Ha & _ & Hr & Ht).
  destruct (transformedResponse_fields _ _ _ _ Ht)
    as (candidates & _ & _ & Hn & _ & _ & _ & _ & Hu).
  exists sent, contents, answer. rewrite Hu. simpl. auto 10.
Qed.

Lemma substring_length n m s :
  length (substring n m s) = Nat.min m (length s - n).
Proof.
  revert n m. induction s as [|c s IH]; intros n m.
  - destruct n, m; reflexivity.
  - destruct n as [|n].
    + destruct m as [|m]; [reflexivity|]. simpl. now rewrite IH, Nat.sub_0_r.
    + simpl. apply IH.
Qed.

(** X7: the [id] of a completion is ["chatcmpl-"] followed by the
    characters 2 to 10 of the base-36 rendering of the random number, so it
    has at most 18 characters, and exactly 18 when the rendering has at
    least 11; [object] is ["chat.completion"]. *)
Theorem completion_id_shape env data st response :
  fst (generateGeminiResponse env data st) = Ok response ->
  id response = "chatcmpl-" ++ substring 2 9 (Math_random_base36 env)
  /\ prefix "chatcmpl-" (id response) = true
  /\ length (id response)
     = 9 + Nat.min 9 (length (Math_random_base36 env) - 2)
  /\ length (id response) <= 18
  /\ (11 <= length (Math_random_base36 env) -> length (id response) = 18)
  /\ object response = "chat.completion".
Proof.
  intros H.
  destruct (generateGeminiResponse_produced _ _ _ _ H)
    as (sent & contents & answer & _ & _ & _ & Ht).
  destruct (transformedResponse_fields _ _ _ _ Ht)
    as (candidates & _ & _ & _ & Hi & Ho & _).
  unfold generateUniqueId in Hi.
  assert (Hl : length (id response)
               = 9 + Nat.min 9 (length (Math_random_base36 env) - 2)).
  { rewrite Hi. simpl. now rewrite substring_length. }
  split; [exact Hi|]. split; [rewrite Hi; apply prefix_app|].
  split; [exact Hl|]. split; [lia|]. split; [lia | exact Ho].
Qed.

(** X8: [created] is the clock in whole seconds: the clock, in
    milliseconds, lies in the second that [created] names. *)
Theorem created_in_seconds env data st response :
  fst (generateGeminiResponse env data st) = Ok response ->
  (created response * 1000 <= Date_now env < created response * 1000 + 1000)%Z.
Proof.
  intros H.
  destruct (generateGeminiResponse_produced _ _ _ _ H)
    as (sent & contents & answer & _ & _ & _ & Ht).
  destruct (transformedResponse_fields _ _ _ _ Ht)
    as (candidates & _ & _ & _ & _ & _ & Hc & _).
  rewrite Hc.
  pose proof (Z.div_mod (Date_now env) 1000 ltac:(lia)).
  pose proof (Z.mod_pos_bound (Date_now env) 1000 ltac:(lia)).
  lia.
Qed.

Lemma upstream_arguments_model data sent contents :
  upstream_arguments data = Ok (sent, contents) ->
  sent = or_else (field data "model") default_model.
Proof.
  destruct (nullish data) eqn:En.
  - destruct data; try discriminate; simpl; discriminate.
  - rewrite upstream_arguments_unfold
      by (intros ->; discriminate). cbv zeta.
    destruct (truthy _).
    + destruct (Buffer_from _); simpl; intros H; now inversion H.
    + intros H. now inversion H.
Qed.

(** X9: the [model] of a completion is the model of the request, or the
    default when the request has none, and it is the model the provider
    call was issued for. *)
Theorem completion_model_echoed env data st response :
  fst (generateGeminiResponse env data st) = Ok response ->
  model response = or_else (field data "model") default_model
  /\ exists contents,
       calls (snd (generateGeminiResponse env data st))
       = (calls st
          ++ [POST_generateContent (model response) (GOOGLE_API_KEY env)
                contents])%list.
Proof.
  intros H.
  destruct (generateGeminiResponse_produced _ _ _ _ H)
    as (sent & contents & answer & Ha & Hk & _ & Ht).
  destruct (transformedResponse_fields _ _ _ _ Ht)
    as (candidates & _ & _ & _ & _ & _ & _ & Hm & _).
  rewrite Hm. split; [now apply upstream_arguments_model in Ha|].
  destruct (generateGeminiResponse_rendered _ _ _ _ _ _ H Ha) as [segment Hs].
  exists contents. exact (generateGeminiResponse_calls _ _ _ _ _ _ Hk Hs Ha).
Qed.

(** ** Answers that cannot be reshaped *)

Lemma post_of_transformedResponse env data st sent contents answer segment :
  GOOGLE_API_KEY env <> "" ->
  template_string sent = Ok segment ->
  upstream_arguments data = Ok (sent, contents) ->
  answers env (POST_generateContent sent (GOOGLE_API_KEY env) contents)
    answer ->
  fst (post_v1_chat_completions env data st)
  = match transformedResponse env sent answer with
    | Ok response => Ok (res_json (CompletionBody response))
    | Throw _ => Ok completions_500
    end
  /\ calls (snd (post_v1_chat_completions env data st))
     = (calls st
        ++ [POST_generateContent sent (GOOGLE_API_KEY env) contents])%list.
Proof.
  intros Hk Hs Ha Hans.
  rewrite post_v1_chat_completions_run, generateGeminiResponse_run, Ha.
  rewrite (getGeminiTextGeneration_answered _ _ _ _ _ _ Hk Hs Hans).
  now destruct (transformedResponse env sent answer).
Qed.

(** X10: a 2xx answer, to a call whose URL could be built, that lacks what
    the reshaping reads is answered with the fixed 500, after the one
    provider call: this is so when [candidates] is not an array, when
    [usageMetadata] is [undefined] or [null], and when some candidate has no
    [content.parts] array or no string [finishReason]. *)
Theorem malformed_answer_500 env data st sent contents answer segment :
  GOOGLE_API_KEY env <> "" ->
  template_string sent = Ok segment ->
  upstream_arguments data = Ok (sent, contents) ->
  answers env (POST_generateContent sent (GOOGLE_API_KEY env) contents)
    answer ->
  (response_candidates answer = None
   \/ nullish (field answer "usageMetadata") = true
   \/ exists candidates candidate,
        response_candidates answer = Some candidates
        /\ In candidate candidates
        /\ (candidate_parts candidate = None
            \/ forall s, field candidate "finishReason" <> VStr s)) ->
  fst (post_v1_chat_completions env data st) = Ok completions_500
  /\ calls (snd (post_v1_chat_completions env data st))
     = (calls st
        ++ [POST_generateContent sent (GOOGLE_API_KEY env) contents])%list.
Proof.
  intros Hk Hs Ha Hans Hbad.
  destruct (post_of_transformedResponse env data st _ _ _ _ Hk Hs Ha Hans)
    as [Hr Hc].
  split; [|exact Hc]. rewrite Hr.
  destruct (transformedResponse env sent answer) as [response|e] eqn:Et;
    [|reflexivity].
  exfalso.
  destruct (transformedResponse_fields _ _ _ _ Et)
    as (candidates & Hcs & Hm & Hn & _).
  destruct Hbad as [H|[H|(cs & candidate & Hcs' & Hin & H)]].
  - rewrite H in Hcs. discriminate.
  - rewrite H in Hn. discriminate.
  - rewrite Hcs' in Hcs. inversion Hcs; subst cs.
    apply In_nth_error in Hin as [k Hk'].
    unfold Array_map in Hm.
    destruct (Array_map_from_nth _ _ _ _ _ _ Hm Hk') as [choice [_ Hf]].
    simpl in Hf.
    destruct (candidate_text candidate) as [s|e] eqn:Ect; [|discriminate].
    simpl in Hf.
    destruct (candidate_text_Ok _ _ Ect) as [part_items [Hp _]].
    destruct H as [H|H]; [rewrite H in Hp; discriminate|].
    destruct (property candidate "finishReason") as [fr|e] eqn:Ef;
      [|discriminate].
    simpl in Hf. apply property_field in Ef. subst fr.
    destruct (field candidate "finishReason") as [| | | |s'| |] eqn:Es;
      try discriminate.
    now apply (H s').
Qed.

Lemma modelNames_Ok answer out :
  modelNames answer = Ok out -> exists names, listed_names answer = Some names.
Proof.
  unfold modelNames, listed_names. intros H.
  destruct (property answer "models") as [v|e] eqn:Ep; [|discriminate].
  simpl in H. apply property_field in Ep. subst v.
  destruct answer as [| | | | | |fields]; try discriminate.
  simpl in H |- *.
  destruct (lookup "models" fields) as [[| | | | |items|]|];
    try discriminate.
  simpl in H. unfold Array_map in H. revert H. generalize 0.
  revert out. induction items as [|m rest IH]; intros out i H.
  - now exists [].
  - simpl in H |- *.
    destruct (property m "name") as [x|e] eqn:Ex; [|discriminate].
    simpl in H.
    destruct x as [| | | |s| |]; try discriminate. simpl in H.
    destruct (Array_map_from (S i) _ rest) as [ys|e] eqn:E; [|discriminate].
    destruct (IH _ _ E) as [names Hn]. rewrite Hn.
    destruct m as [| | | | | |mf]; try discriminate. simpl in Ex |- *.
    destruct (lookup "name" mf) as [[| | | |s'| |]|]; try discriminate.
    simpl. eauto.
Qed.

(** X11: a 2xx model list that is not an object with a [models] array of
    objects with a string [name] is answered with the fixed 500. *)
Theorem malformed_model_list_500 env st answer :
  GOOGLE_API_KEY env <> "" ->
  answers env (GET_models (GOOGLE_API_KEY env)) answer ->
  listed_names answer = None ->
  fst (get_v1_models env st) = Ok models_500.
Proof.
  intros Hk Hans Hn.
  rewrite get_v1_models_run, (getGeminiModels_answered _ _ _ Hk Hans).
  destruct (modelNames answer) as [out|e] eqn:E; [|reflexivity].
  destruct (modelNames_Ok _ _ E) as [names Hnames].
  rewrite Hnames in Hn. discriminate.
Qed.

(** ** Bodies that are arrays *)

(** X12: a body that is a JSON array, whatever it holds, is handled
    exactly like the empty object: every default applies, and the route
    behaves as it does for [{}]. *)
Theorem array_body_as_empty_object env items st :
  upstream_arguments (VArr items)
  = Ok (default_model, [ {| parts := [text_part default_prompt] |} ])
  /\ post_v1_chat_completions env (VArr items) st
     = post_v1_chat_completions env (VObj []) st
  /\ calls (snd (post_v1_chat_completions env (VArr items) st))
     = (if GOOGLE_API_KEY env =? ""
        then calls st
        else calls st
             ++ [POST_generateContent default_model (GOOGLE_API_KEY env)
                   [ {| parts := [text_part default_prompt] |} ]])%list.
Proof.
  split; [reflexivity|]. split; [reflexivity|].
  rewrite post_v1_chat_completions_run, generateGeminiResponse_run.
  change (upstream_arguments (VArr items))
    with (Ok (A := value * list Content)
            (default_model, [ {| parts := [text_part default_prompt] |} ])).
  cbv iota beta. rewrite getGeminiTextGeneration_run.
  destruct (GOOGLE_API_KEY env =? ""); [reflexivity|]. cbv zeta.
  change (template_string default_model)
    with (Ok (A := string) "gemini-1.5-flash").
  cbv iota beta.
  destruct (resolved env _) as [answer|]; [|reflexivity].
  now destruct (transformedResponse env default_model answer).
Qed.

(** ** The one occurrence that [replace] removes *)

Lemma prefix_split p s :
  prefix p s = true -> s = p ++ string_drop (length p) s.
Proof.
  revert s. induction p as [|c p IH]; intros s H.
  - now destruct s.
  - destruct s as [|d s]; [discriminate|]. simpl in H |- *.
    destruct (ascii_dec c d) as [->|]; [|discriminate].
    f_equal. now apply IH.
Qed.

Lemma String_replace_first_occurrence p rep s :
  occurs p s = true ->
  exists a b,
    s = a ++ p ++ b
    /\ String_replace p rep s = a ++ rep ++ b
    /\ forall a' b', s = a' ++ p ++ b' -> length a <= length a'.
Proof.
  induction s as [|c s IH]; intros H;
    rewrite occurs_unfold in H; rewrite String_replace_unfold;
    destruct (prefix p _) eqn:Ep.
  - exists "", (string_drop (length p) "").
    split; [now apply prefix_split|]. split; [reflexivity|].
    intros a' b' _. simpl. lia.
  - discriminate.
  - exists "", (string_drop (length p) (String c s)).
    split; [now apply prefix_split|]. split; [reflexivity|].
    intros a' b' _. simpl. lia.
  - simpl in H. destruct (IH H) as (a & b & Hs & Hr & Hmin).
    exists (String c a), b. split; [simpl; now f_equal|].
    split; [simpl; now f_equal|].
    intros a' b' E. destruct a' as [|c' a'].
    + simpl in E. rewrite E, prefix_app in Ep. discriminate.
    + simpl in E. inversion E; subst c'. simpl.
      apply le_n_S. eapply Hmin. eassumption.
Qed.

Lemma append_length a b : length (a ++ b) = length a + length b.
Proof. induction a as [|c a IH]; simpl; [reflexivity | now rewrite IH]. Qed.

(** X13: each listed name loses at most one occurrence of ["models/"], the
    first one: a name without an occurrence is returned as it is, and a
    name with one is returned without its first occurrence, seven
    characters shorter, later occurrences being kept. *)
Theorem one_occurrence_removed answer names :
  listed_names answer = Some names ->
  exists out,
    modelNames answer = Ok out
    /\ List.length out = List.length names
    /\ forall k name,
         nth_error names k = Some name ->
         exists o,
           nth_error out k = Some o
           /\ ((occurs "models/" name = false /\ o = name)
               \/ exists a b,
                    name = a ++ "models/" ++ b
                    /\ o = a ++ b
                    /\ length o + 7 = length name
                    /\ forall a' b',
                         name = a' ++ "models/" ++ b' ->
                         length a <= length a').
Proof.
  intros H. exists (map (String_replace "models/" "") names).
  split; [now apply modelNames_listed|]. split; [apply length_map|].
  intros k name Hk. exists (String_replace "models/" "" name).
  split; [now apply map_nth_error|].
  destruct (occurs "models/" name) eqn:Eo.
  - right.
    destruct (String_replace_first_occurrence "models/" "" name Eo)
      as (a & b & Hs & Hr & Hmin).
    exists a, b. split; [exact Hs|]. split; [exact Hr|].
    split; [|exact Hmin].
    rewrite Hr, Hs. simpl. rewrite !append_length. simpl. lia.
  - left. split; [reflexivity|]. now apply String_replace_absent.
Qed.

(** ** The inline payload *)

Lemma base64_length bytes :
  length (base64 bytes) = 4 * ((List.length bytes + 2) / 3).
Proof.
  induction bytes as [|a|a b|a b c rest IH] using list_ind3;
    try reflexivity.
  cbn [base64 length List.length]. rewrite IH.
  replace (S (S (S (List.length rest))) + 2)
    with (List.length rest + 2 + 1 * 3) by lia.
  rewrite Nat.div_add by lia. lia.
Qed.

(** X14: for a valid request with a non-empty [inlineData], the payload
    of the second part decodes back to exactly the given bytes, and its
    length is four characters for every group of up to three bytes. *)
Theorem inline_payload_decodes data :
  valid_request data = true ->
  truthy (field data "inlineData") = true ->
  exists sent first mimeType payload,
    upstream_arguments data
    = Ok (sent, [ {| parts := [first; inline_part mimeType payload] |} ])
    /\ base64_decode payload = Some (given_bytes (field data "inlineData"))
    /\ length payload
       = 4 * ((List.length (given_bytes (field data "inlineData")) + 2) / 3).
Proof.
  intros Hv Ht.
  assert (H1 : data <> VUndefined) by (intros ->; discriminate).
  assert (H2 : data <> VNull) by (intros ->; discriminate).
  pose proof (upstream_arguments_unfold _ H1 H2) as Hu. cbv zeta in Hu.
  rewrite Ht in Hu.
  destruct (valid_request_inlineData _ Hv) as [E|E];
    [rewrite E in Ht; discriminate|].
  rewrite (Buffer_from_raw_bytes _ E) in Hu. simpl in Hu.
  do 4 eexists. split; [exact Hu|].
  split; [apply base64_decode_encode | apply base64_length].
Qed.

(** ** The fields that are read *)

(** X15: only [model], [prompt], [mimeType] and [inlineData] are read from
    the request: any other field, such as an OpenAI style [messages] list,
    changes neither the provider call nor the response. *)
Theorem other_fields_ignored fields k :
  ~ In k ["model"; "prompt"; "mimeType"; "inlineData"] ->
  upstream_arguments (VObj fields)
  = upstream_arguments (VObj (remove_key k fields))
  /\ forall env st,
       post_v1_chat_completions env (VObj fields) st
       = post_v1_chat_completions env (VObj (remove_key k fields)) st.
Proof.
  intros Hk.
  assert (E : upstream_arguments (VObj fields)
              = upstream_arguments (VObj (remove_key k fields))).
  { rewrite !upstream_arguments_unfold by discriminate. cbv zeta.
    rewrite !field_remove_key_other; [reflexivity| | | |];
      intros <-; apply Hk; simpl; auto. }
  split; [exact E|]. intros env st.
  unfold post_v1_chat_completions, generateGeminiResponse. now rewrite E.
Qed.

(** X16: [mimeType] matters only together with [inlineData]: when
    [inlineData] is absent or falsy, a request with a [mimeType] and the
    same request without it give the same provider call and response. *)
Theorem mimeType_needs_inlineData fields :
  truthy (field (VObj fields) "inlineData") = false ->
  upstream_arguments (VObj fields)
  = upstream_arguments (VObj (remove_key "mimeType" fields))
  /\ forall env st,
       post_v1_chat_completions env (VObj fields) st
       = post_v1_chat_completions env
           (VObj (remove_key "mimeType" fields)) st.
Proof.
  intros Ht.
  assert (E : upstream_arguments (VObj fields)
              = upstream_arguments (VObj (remove_key "mimeType" fields))).
  { rewrite !upstream_arguments_unfold by discriminate. cbv zeta.
    rewrite !field_remove_key_other by discriminate.
    now rewrite Ht. }
  split; [exact E|]. intros env st.
  unfold post_v1_chat_completions, generateGeminiResponse. now rewrite E.
Qed.

End Further.

(** ** The further statements at concrete runs *)

Lemma provider_failure_wrapped_witness :
  GOOGLE_API_KEY silent_env <> ""
  /\ unanswered silent_env (GET_models "secret")
  /\ getGeminiModels silent_env initial_state
     = (Throw (Error "Failed to fetch Gemini models"),
        {| calls := [GET_models "secret"];
           console := [("Error fetching models:", AxiosError)] |})
  /\ @template_string plain_runtime (VStr "gemini-pro") = Ok "gemini-pro"
  /\ unanswered silent_env
       (POST_generateContent (VStr "gemini-pro") "secret" [])
  /\ @getGeminiTextGeneration plain_runtime silent_env (VStr "gemini-pro") []
       initial_state
     = (Throw (Error "Failed to generate text"),
        {| calls := [POST_generateContent (VStr "gemini-pro") "secret" []];
           console := [("Error generating text:", AxiosError)] |})
  /\ @template_string plain_runtime (VObj [("toString", VNum 1)])
     = Throw TypeError
  /\ @getGeminiTextGeneration plain_runtime silent_env
       (VObj [("toString", VNum 1)]) [] initial_state
     = (Throw (Error "Failed to generate text"),
        {| calls := [];
           console := [("Error generating text:", TypeError)] |}).
Proof.
  assert (Hk : GOOGLE_API_KEY silent_env <> "") by discriminate.
  pose proof (@provider_failure_wrapped plain_runtime silent_env
                initial_state Hk) as (H1 & H2 & H3).
  split; [exact Hk|]. split; [exact I|]. split; [exact (H1 I)|].
  split; [reflexivity|]. split; [exact I|].
  split; [exact (H2 (VStr "gemini-pro") [] "gemini-pro" eq_refl I)|].
  split; [reflexivity|].
  exact (H3 (VObj [("toString", VNum 1)]) [] TypeError eq_refl).
Defined.

Lemma console_records_failures_witness :
  fst (@generateGeminiResponse plain_runtime silent_env hello_request
         initial_state)
  = Throw (Error "Failed to generate text")
  /\ exists earlier,
       console (snd (@post_v1_chat_completions plain_runtime silent_env
                       hello_request initial_state))
       = ([] ++ earlier
          ++ [("Error generating response:",
               Error "Failed to generate text")])%list
       /\ (earlier = []
           \/ earlier = [("Error generating text:", AxiosError)]
           \/ exists model contents e',
                @upstream_arguments plain_runtime hello_request
                = Ok (model, contents)
                /\ @template_string plain_runtime model = Throw e'
                /\ earlier = [("Error generating text:", e')]).
Proof.
  split; [reflexivity|].
  exact (proj2 (proj2 (@console_records_failures plain_runtime silent_env
                         hello_request initial_state))
           _ eq_refl).
Defined.

Lemma choice_index_and_finish_reason_witness :
  exists response,
    fst (@generateGeminiResponse plain_runtime sample_env hello_request
           initial_state)
    = Ok response
    /\ exists sent contents answer candidates,
         @upstream_arguments plain_runtime hello_request
         = Ok (sent, contents)
         /\ resolved sample_env
              (POST_generateContent sent "secret" contents)
            = Some answer
         /\ response_candidates answer = Some candidates
         /\ forall i choice,
              nth_error (choices response) i = Some choice ->
              index choice = i
              /\ role (message choice) = "assistant"
              /\ exists candidate s,
                   nth_error candidates i = Some candidate
                   /\ field candidate "finishReason" = VStr s
                   /\ finish_reason choice
                      = @String_toLowerCase plain_runtime s.
Proof.
  eexists. split; [reflexivity|].
  exact (@choice_index_and_finish_reason plain_runtime sample_env
           hello_request initial_state _ eq_refl).
Defined.

Lemma usage_copied_witness :
  exists response,
    fst (@generateGeminiResponse plain_runtime sample_env hello_request
           initial_state)
    = Ok response
    /\ exists sent contents answer,
         @upstream_arguments plain_runtime hello_request
         = Ok (sent, contents)
         /\ resolved sample_env
              (POST_generateContent sent "secret" contents)
            = Some answer
         /\ nullish (field answer "usageMetadata") = false
         /\ prompt_tokens (usage response)
            = field (field answer "usageMetadata") "promptTokenCount"
         /\ completion_tokens (usage response)
            = field (field answer "usageMetadata") "candidatesTokenCount"
         /\ total_tokens (usage response)
            = field (field answer "usageMetadata") "totalTokenCount".
Proof.
  eexists. split; [reflexivity|].
  exact (@usage_copied plain_runtime sample_env hello_request initial_state
           _ eq_refl).
Defined.

Lemma completion_id_shape_witness :
  exists response,
    fst (@generateGeminiResponse plain_runtime sample_env hello_request
           initial_state)
    = Ok response
    /\ id response = "chatcmpl-" ++ substring 2 9 "0.4fzyo82mvyr"
    /\ prefix "chatcmpl-" (id response) = true
    /\ length (id response) = 9 + Nat.min 9 (length "0.4fzyo82mvyr" - 2)
    /\ length (id response) <= 18
    /\ (11 <= length "0.4fzyo82mvyr" -> length (id response) = 18)
    /\ object response = "chat.completion".
Proof.
  eexists. split; [reflexivity|].
  exact (@completion_id_shape plain_runtime sample_env hello_request
           initial_state _ eq_refl).
Defined.

Lemma created_in_seconds_witness :
  exists response,
    fst (@generateGeminiResponse plain_runtime sample_env hello_request
           initial_state)
    = Ok response
    /\ (created response * 1000 <= 1700000000123
        < created response * 1000 + 1000)%Z.
Proof.
  eexists. split; [reflexivity|].
  exact (@created_in_seconds plain_runtime sample_env hello_request
           initial_state _ eq_refl).
Defined.

Lemma completion_model_echoed_witness :
  exists response,
    fst (@generateGeminiResponse plain_runtime sample_env bytes_request
           initial_state)
    = Ok response
    /\ model response = VStr "gemini-pro"
    /\ exists contents,
         calls (snd (@generateGeminiResponse plain_runtime sample_env
                       bytes_request initial_state))
         = [POST_generateContent (model response) "secret" contents].
Proof.
  eexists. split; [reflexivity|].
  exact (@completion_model_echoed plain_runtime sample_env bytes_request
           initial_state _ eq_refl).
Defined.

Lemma malformed_answer_500_witness :
  GOOGLE_API_KEY shapeless_env <> ""
  /\ @template_string plain_runtime (VStr "gemini-1.5-flash")
     = Ok "gemini-1.5-flash"
  /\ @upstream_arguments plain_runtime hello_request
     = Ok (VStr "gemini-1.5-flash",
           [ {| parts := [ text_part (VStr "Hello") ] |} ])
  /\ answers shapeless_env
       (POST_generateContent (VStr "gemini-1.5-flash") "secret"
          [ {| parts := [ text_part (VStr "Hello") ] |} ])
       (VObj [])
  /\ response_candidates (VObj []) = None
  /\ fst (@post_v1_chat_completions plain_runtime shapeless_env
            hello_request initial_state)
     = Ok completions_500
  /\ calls (snd (@post_v1_chat_completions plain_runtime shapeless_env
                   hello_request initial_state))
     = [POST_generateContent (VStr "gemini-1.5-flash") "secret"
          [ {| parts := [ text_part (VStr "Hello") ] |} ]].
Proof.
  assert (Hk : GOOGLE_API_KEY shapeless_env <> "") by discriminate.
  assert (Ha : answers shapeless_env
                 (POST_generateContent (VStr "gemini-1.5-flash") "secret"
                    [ {| parts := [ text_part (VStr "Hello") ] |} ])
                 (VObj []))
    by (exists 200%Z; split; [reflexivity | lia]).
  split; [exact Hk|]. split; [reflexivity|]. split; [reflexivity|].
  split; [exact Ha|]. split; [reflexivity|].
  exact (@malformed_answer_500 plain_runtime shapeless_env hello_request
           initial_state (VStr "gemini-1.5-flash")
           [ {| parts := [ text_part (VStr "Hello") ] |} ]
           (VObj []) "gemini-1.5-flash" Hk eq_refl eq_refl
           Ha (or_introl eq_refl)).
Defined.

Lemma malformed_model_list_500_witness :
  GOOGLE_API_KEY shapeless_env <> ""
  /\ answers shapeless_env (GET_models "secret") (VObj [])
  /\ listed_names (VObj []) = None
  /\ fst (get_v1_models shapeless_env initial_state) = Ok models_500.
Proof.
  assert (Hk : GOOGLE_API_KEY shapeless_env <> "") by discriminate.
  assert (Ha : answers shapeless_env (GET_models "secret") (VObj []))
    by (exists 200%Z; split; [reflexivity | lia]).
  split; [exact Hk|]. split; [exact Ha|]. split; [reflexivity|].
  exact (malformed_model_list_500 shapeless_env initial_state (VObj [])
           Hk Ha eq_refl).
Defined.

Lemma one_occurrence_removed_witness :
  listed_names nested_models = Some ["publishers/google/models/gemini-pro"]
  /\ exists out,
       modelNames nested_models = Ok out
       /\ List.length out = 1
       /\ forall k name,
            nth_error ["publishers/google/models/gemini-pro"] k = Some name ->
            exists o,
              nth_error out k = Some o
              /\ ((occurs "models/" name = false /\ o = name)
                  \/ exists a b,
                       name = a ++ "models/" ++ b
                       /\ o = a ++ b
                       /\ length o + 7 = length name
                       /\ forall a' b',
                            name = a' ++ "models/" ++ b' ->
                            length a <= length a').
Proof.
  split; [reflexivity|].
  exact (one_occurrence_removed nested_models
           ["publishers/google/models/gemini-pro"] eq_refl).
Defined.

Lemma inline_payload_decodes_witness :
  valid_request bytes_request = true
  /\ truthy (field bytes_request "inlineData") = true
  /\ exists sent first mimeType payload,
       @upstream_arguments plain_runtime bytes_request
       = Ok (sent, [ {| parts := [first; inline_part mimeType payload] |} ])
       /\ base64_decode payload
          = Some (given_bytes (field bytes_request "inlineData"))
       /\ length payload
          = 4 * ((List.length
                    (given_bytes (field bytes_request "inlineData")) + 2)
                 / 3).
Proof.
  split; [reflexivity|]. split; [reflexivity|].
  exact (@inline_payload_decodes plain_runtime bytes_request
           eq_refl eq_refl).
Defined.

Lemma other_fields_ignored_witness :
  ~ In "messages" ["model"; "prompt"; "mimeType"; "inlineData"]
  /\ @upstream_arguments plain_runtime
       (VObj [("messages", VArr [VObj [("role", VStr "user")]]);
              ("prompt", VStr "Hello")])
     = @upstream_arguments plain_runtime hello_request
  /\ forall env st,
       @post_v1_chat_completions plain_runtime env
         (VObj [("messages", VArr [VObj [("role", VStr "user")]]);
                ("prompt", VStr "Hello")]) st
       = @post_v1_chat_completions plain_runtime env hello_request st.
Proof.
  assert (Hk : ~ In "messages" ["model"; "prompt"; "mimeType"; "inlineData"])
    by (intros [H|[H|[H|[H|[]]]]]; discriminate H).
  split; [exact Hk|].
  exact (@other_fields_ignored plain_runtime
           [("messages", VArr [VObj [("role", VStr "user")]]);
            ("prompt", VStr "Hello")]
           "messages" Hk).
Defined.

Lemma mimeType_needs_inlineData_witness :
  truthy (field (VObj [("prompt", VStr "Hello");
                       ("mimeType", VStr "image/png")]) "inlineData")
  = false
  /\ @upstream_arguments plain_runtime
       (VObj [("prompt", VStr "Hello"); ("mimeType", VStr "image/png")])
     = @upstream_arguments plain_runtime hello_request
  /\ forall env st,
       @post_v1_chat_completions plain_runtime env
         (VObj [("prompt", VStr "Hello"); ("mimeType", VStr "image/png")]) st
       = @post_v1_chat_completions plain_runtime env hello_request st.
Proof.
  split; [reflexivity|].
  exact (@mimeType_needs_inlineData plain_runtime
           [("prompt", VStr "Hello"); ("mimeType", VStr "image/png")]
           eq_refl).
Defined.
